(** * AiCopilotDP: tool registry, process supervision and status readers

    A shallow embedding of the controller [aicopilot_dp.py] and of the
    status-file readers of the tool windows
    ([tools/FakeTool/main_gui.py], [tools/Vision_Tester/main_gui.py]),
    together with the properties of the design document that concern them.

    Python dictionaries are finite maps ([gmap]); a raised exception is the
    [Raise] case of a small error monad; every effect on the window system
    (message boxes, hide/show, process start) is appended to a trace kept in
    the controller state, in the order in which the code performs it. *)

From stdpp Require Import gmap strings list fin_maps pretty sorting.

(** ** JSON values and Python exceptions *)

Module Json.

(** The scalar values that occur in [studio_config.json] and in the status
    files: strings and integers. *)
Inductive jval :=
  | JStr (s : string)
  | JInt (n : Z).

#[global] Instance jval_eq_dec : EqDecision jval.
Proof. solve_decision. Defined.

Definition jval_enc (v : jval) : string + Z :=
  match v with JStr s => inl s | JInt n => inr n end.

Definition jval_dec (x : string + Z) : jval :=
  match x with inl s => JStr s | inr n => JInt n end.

Definition jval_dec_enc (v : jval) : jval_dec (jval_enc v) = v :=
  match v with JStr _ => eq_refl | JInt _ => eq_refl end.

#[global] Instance jval_countable : Countable jval :=
  inj_countable' jval_enc jval_dec jval_dec_enc.

(** A JSON object whose members are scalars: one tool entry of the
    configuration, or one status record. *)
Abbreviation jobj := (gmap string jval).

(** What [json.load] returns for a status file: an object, or any other
    JSON value (array, string, number, null), on which [.get] does not
    exist. *)
Inductive json :=
  | JObject (o : jobj)
  | JOther.

(** [str(v)], as an f-string renders a value. *)
Definition py_str (v : jval) : string :=
  match v with
  | JStr s => s
  | JInt n => pretty n
  end.

(** Truth value of [v] in an [if]. *)
Definition truthy (v : jval) : bool :=
  match v with
  | JStr s => negb (bool_decide (s = ""))
  | JInt n => negb (bool_decide (n = 0%Z))
  end.

Inductive exn :=
  | KeyError (key : string)
  | TypeError
  | AttributeError
  | FileNotFoundError
  | OSError
  | JSONDecodeError.

#[global] Instance exn_eq_dec : EqDecision exn.
Proof. solve_decision. Defined.

(** Result of a computation that may raise. *)
Inductive res (A : Type) :=
  | Ok (a : A)
  | Raise (e : exn).
Arguments Ok {A} a.
Arguments Raise {A} e.

Definition bind {A B} (m : res A) (k : A -> res B) : res B :=
  match m with
  | Ok a => k a
  | Raise e => Raise e
  end.

#[global] Instance res_ret : MRet res := @Ok.
#[global] Instance res_bind : MBind res := fun A B k m => bind m k.

(** [d[k]] *)
Definition getitem (d : jobj) (k : string) : res jval :=
  match d !! k with
  | Some v => Ok v
  | None => Raise (KeyError k)
  end.

(** [d.get(k, dflt)] *)
Definition get (d : jobj) (k : string) (dflt : jval) : jval :=
  default dflt (d !! k).

(** What a reader or loader finds when it opens a JSON file: the file is
    absent, [open] or [json.load] raises ([Unreadable] carries the
    exception), or a JSON value is parsed. *)
Inductive file_state :=
  | Missing
  | Unreadable (e : exn)
  | Parsed (j : json).

End Json.

Import Json.

(** ** The controller: [aicopilot_dp.py] *)

Module Controller.

(** A [pathlib.Path], as the sequence of the segments it was built from:
    [Path(s)] is [[s]] and [p / s] appends [s]. *)
Definition path := list string.

Definition Path (v : jval) : res path :=
  match v with
  | JStr s => Ok [s]
  | JInt _ => Raise TypeError
  end.

Definition joinpath (p : path) (s : string) : path := p ++ [s].

Definition truediv (p : path) (v : jval) : res path :=
  match v with
  | JStr s => Ok (joinpath p s)
  | JInt _ => Raise TypeError
  end.

(** The part of the operating system the controller consults, at the time
    of one call: [str(p)] and [p.exists()]. *)
Record os := {
  path_str : path -> string;
  path_exists : path -> bool;
}.

(** A [QProcess] object; [proc_id] is the identity of the object. *)
Record qprocess := {
  proc_id : nat;
  program : string;
  arguments : list string;
  workingDirectory : string;
}.

#[global] Instance qprocess_eq_dec : EqDecision qprocess.
Proof. solve_decision. Defined.

Inductive standard_button := Yes | No.

#[global] Instance standard_button_eq_dec : EqDecision standard_button.
Proof. solve_decision. Defined.

(** Effects on the window system, as they are recorded in the trace. *)
Inductive event :=
  | MsgWarning (title text : string)
  | MsgCritical (title text : string)
  | MsgQuestion (title text : string)
  | WinHide
  | WinShow
  | WinActivate
  | ProcStart (p : qprocess).

#[global] Instance event_eq_dec : EqDecision event.
Proof. solve_decision. Defined.

(** The parsed [studio_config.json]: an object whose [tools] member, when
    present, is an array of tool entries. *)
Record config_doc := {
  launcher_version : option jval;
  tools : option (list jobj);
}.

(** The state of the [AiCopilotDP] window. *)
Record controller := {
  config : config_doc;
  active_processes : gmap jval qprocess;
  visible : bool;
  trace : list event;
  next_proc : nat;
}.

Definition emit (e : event) (s : controller) : controller :=
  {| config := config s;
     active_processes := active_processes s;
     visible := visible s;
     trace := trace s ++ [e];
     next_proc := next_proc s |}.

Definition set_visible (b : bool) (s : controller) : controller :=
  {| config := config s;
     active_processes := active_processes s;
     visible := b;
     trace := trace s;
     next_proc := next_proc s |}.

Definition set_active (m : gmap jval qprocess) (s : controller) : controller :=
  {| config := config s;
     active_processes := m;
     visible := visible s;
     trace := trace s;
     next_proc := next_proc s |}.

Definition hide (s : controller) : controller := set_visible false (emit WinHide s).
Definition show (s : controller) : controller := set_visible true (emit WinShow s).
Definition activateWindow (s : controller) : controller := emit WinActivate s.

(** Outcome of [load_config]: the document, or the error dialog followed
    by [sys.exit(code)], or an exception that nothing catches. *)
Inductive load_outcome :=
  | Loaded (doc : config_doc)
  | FatalExit (dialog : event) (code : Z)
  | Uncaught (e : exn).

(** What [open] and [json.load] do at [studio_config.json]: one of them
    raises ([FileNotFoundError] when the file is absent), or the document
    is parsed. *)
Inductive config_source :=
  | SrcRaises (e : exn)
  | SrcParsed (doc : config_doc).

(** [load_config]: only [FileNotFoundError] is caught. *)
Definition load_config (src : config_source) : load_outcome :=
  match src with
  | SrcParsed doc => Loaded doc
  | SrcRaises e =>
      if decide (e = FileNotFoundError)
      then FatalExit (MsgCritical "Config Error" "studio_config.json not found!") 1
      else Uncaught e
  end.

(** The window after [__init__] and [launcher.show()] in [main]. *)
Definition startup (doc : config_doc) : controller :=
  show {| config := doc;
          active_processes := ∅;
          visible := false;
          trace := [];
          next_proc := 0 |}.

(** The loop of [get_tool_by_id] over [self.config.get('tools', [])]. *)
Fixpoint find_tool (ts : list jobj) (tool_id : jval) : res (option jobj) :=
  match ts with
  | [] => Ok None
  | tool :: rest =>
      id ← getitem tool "id";
      if decide (id = tool_id) then Ok (Some tool) else find_tool rest tool_id
  end.

Definition get_tool_by_id (cfg : config_doc) (tool_id : jval) : res (option jobj) :=
  find_tool (default [] (tools cfg)) tool_id.

Definition nl : string := String (Ascii.ascii_of_nat 10) "".

(** [tool_path / ".venv" / "Scripts" / "python.exe"] *)
Definition venv_python_of (tool_path : path) : path :=
  joinpath (joinpath (joinpath tool_path ".venv") "Scripts") "python.exe".

Definition not_registered (tool_id : jval) : event :=
  MsgWarning "Tool Not Found" ("Tool '" +:+ py_str tool_id +:+ "' not registered.").

Definition environment_missing (w : os) (name : jval) (venv_python : path) : event :=
  MsgWarning "Environment Missing"
    ("Virtual environment not found for " +:+ py_str name +:+ "."
     +:+ nl +:+ "Expected: " +:+ path_str w venv_python).

(** [on_tool_finished] *)
Definition on_tool_finished (s : controller) (tool_id : jval) : controller :=
  let s1 :=
    if decide (is_Some (active_processes s !! tool_id))
    then set_active (delete tool_id (active_processes s)) s
    else s in
  activateWindow (show s1).

Definition tool_error (name : jval) : event :=
  MsgCritical "Tool Error" (py_str name +:+ " encountered an error.").

(** [on_tool_error]: subscripting [None] raises [TypeError]. *)
Definition on_tool_error (s : controller) (tool_id : jval) : res controller :=
  tool_info ← get_tool_by_id (config s) tool_id;
  match tool_info with
  | None => Raise TypeError
  | Some tool_info =>
      name ← getitem tool_info "display_name";
      Ok (on_tool_finished (emit (tool_error name) s) tool_id)
  end.

(** What [process.start()] does before it returns.  [Started]: it returns
    and whatever the process signals afterwards comes through the event
    loop.  [FailedToStart]: the program cannot be started and
    [errorOccurred] is emitted inside [start()], so that the slot connected
    two lines above, [on_tool_error(tool_id)], runs before [start()]
    returns; a process that failed to start emits nothing more. *)
Inductive start_result :=
  | Started
  | FailedToStart.

#[global] Instance start_result_eq_dec : EqDecision start_result.
Proof. solve_decision. Defined.

(** The [QProcess] a launch builds: [setProgram], [setArguments],
    [setWorkingDirectory] on a new object. *)
Definition new_process (w : os) (s : controller)
    (tool_path entry_point venv_python : path) : qprocess :=
  {| proc_id := next_proc s;
     program := path_str w venv_python;
     arguments := [path_str w entry_point];
     workingDirectory := path_str w tool_path |}.

(** The second half of [launch_tool]: hide the window, build the
    [QProcess], start it and only then record it under [tool_id].  An
    exception raised in the slot is reported by the binding and [start()]
    returns. *)
Definition start_process (r : start_result) (w : os) (s : controller) (tool_id : jval)
    (tool_path entry_point venv_python : path) : controller :=
  let s1 := hide s in
  let process := new_process w s1 tool_path entry_point venv_python in
  let s2 :=
    {| config := config s1;
       active_processes := active_processes s1;
       visible := visible s1;
       trace := trace s1 ++ [ProcStart process];
       next_proc := S (next_proc s1) |} in
  let s3 :=
    match r with
    | Started => s2
    | FailedToStart =>
        match on_tool_error s2 tool_id with Ok s' => s' | Raise _ => s2 end
    end in
  set_active (<[tool_id := process]> (active_processes s3)) s3.

(** [launch_tool].  A found entry has an [id] member, so it is not the
    empty dictionary and [not tool_info] holds for [None] only. *)
Definition launch_tool (r : start_result) (w : os) (s : controller) (tool_id : jval)
    : res controller :=
  tool_info ← get_tool_by_id (config s) tool_id;
  match tool_info with
  | None => Ok (emit (not_registered tool_id) s)
  | Some tool_info =>
      p ← getitem tool_info "path";
      tool_path ← Path p;
      e ← getitem tool_info "entry_point";
      entry_point ← truediv tool_path e;
      let venv_python := venv_python_of tool_path in
      if negb (path_exists w venv_python) then
        name ← getitem tool_info "display_name";
        Ok (emit (environment_missing w name venv_python) s)
      else
        Ok (start_process r w s tool_id tool_path entry_point venv_python)
  end.

Definition tools_running : event :=
  MsgQuestion "Tools Running" "Tools are still running. Close anyway?".

(** [closeEvent]: the state afterwards and whether the event was accepted.
    [reply] is the button the user presses if the question is asked. *)
Definition closeEvent (s : controller) (reply : standard_button) : controller * bool :=
  if negb (bool_decide (active_processes s = ∅)) then
    let s1 := emit tools_running s in
    if decide (reply = No) then (s1, false) else (s1, true)
  else (s, true).

(** The calls the event loop makes on the window: a launch whose
    [process.start()] returns without a signal, the two process signals
    delivered by the loop after [launch_tool] has returned, and a close
    request.  (A launch whose start fails is [launch_tool FailedToStart].) *)
Inductive call :=
  | LaunchTool (w : os) (tool_id : jval)
  | Finished (tool_id : jval)
  | ErrorOccurred (tool_id : jval)
  | CloseRequest (reply : standard_button).

(** One turn of the loop; an exception raised in a slot leaves the window
    as it was. *)
Definition step (s : controller) (c : call) : controller :=
  match c with
  | LaunchTool w tool_id =>
      match launch_tool Started w s tool_id with Ok s' => s' | Raise _ => s end
  | Finished tool_id => on_tool_finished s tool_id
  | ErrorOccurred tool_id =>
      match on_tool_error s tool_id with Ok s' => s' | Raise _ => s end
  | CloseRequest reply => fst (closeEvent s reply)
  end.

Definition run (s : controller) (cs : list call) : controller :=
  fold_left step cs s.

(** Every recorded process was created before the next one will be. *)
Definition fresh (s : controller) : Prop :=
  ∀ i h, active_processes s !! i = Some h -> proc_id h < next_proc s.

(** The two process signals, handled by [on_tool_finished] and
    [on_tool_error]. *)
Definition terminal (c : call) : Prop :=
  match c with
  | Finished _ | ErrorOccurred _ => True
  | _ => False
  end.

End Controller.

(** ** The status file: writers ([engine.py]) and readers ([main_gui.py]) *)

Module StatusFile.

(** The record [update_status] of every engine dumps into its status file;
    [now] is [datetime.now().isoformat()] at the time of the write. *)
Definition update_status (status : string) (progress : Z) (message now : string) : jobj :=
  <["status" := JStr status]>
    (<["progress" := JInt progress]>
       (<["message" := JStr message]>
          (<["timestamp" := JStr now]> ∅))).

(** What the body of a reader's [try] finds: [None] when the file does not
    exist, the exception of [open] or [json.load], or the parsed value. *)
Definition load (f : file_state) : res (option json) :=
  match f with
  | Missing => Ok None
  | Unreadable e => Raise e
  | Parsed j => Ok (Some j)
  end.

(** [status.get(k, dflt)] on whatever [json.load] returned. *)
Definition json_get (j : json) (k : string) (dflt : jval) : res jval :=
  match j with
  | JObject o => Ok (get o k dflt)
  | JOther => Raise AttributeError
  end.

(** [status.get('status') in [a, b]] *)
Definition status_in (j : json) (allowed : list string) : res bool :=
  match j with
  | JObject o =>
      Ok (match o !! "status" with
          | Some (JStr s) => bool_decide (s ∈ allowed)
          | _ => false
          end)
  | JOther => Raise AttributeError
  end.

(** The timestamp of a record, when it has one. *)
Definition timestamp (o : jobj) : option string :=
  match o !! "timestamp" with
  | Some (JStr t) => Some t
  | _ => None
  end.

(** [o1] was produced before [o2]: ISO-8601 timestamps of one format are
    ordered as strings. *)
Definition older (o1 o2 : jobj) : bool :=
  match timestamp o1, timestamp o2 with
  | Some t1, Some t2 => String.ltb t1 t2
  | _, _ => false
  end.

(** The last record among the successive contents of a status file. *)
Definition last_record (fs : list file_state) : option jobj :=
  last (omap (fun f => match f with Parsed (JObject o) => Some o | _ => None end) fs).

End StatusFile.

(** *** [tools/FakeTool/main_gui.py] *)

Module FakeTool.
Import StatusFile.

Record gui := {
  lbl_status : string;
  status_timer_active : bool;
}.

(** [update_status] of the window: the status label. *)
Definition update_status (message : string) (g : gui) : gui :=
  {| lbl_status := "Status: " +:+ message;
     status_timer_active := status_timer_active g |}.

Definition check_engine_status_body (g : gui) (f : file_state) : res gui :=
  st ← load f;
  match st with
  | None => Ok g
  | Some status =>
      message ← json_get status "message" (JStr "Unknown");
      Ok (update_status ("Engine: " +:+ py_str message) g)
  end.

(** [check_engine_status]: [except Exception: pass]. *)
Definition check_engine_status (g : gui) (f : file_state) : gui :=
  match check_engine_status_body g f with
  | Ok g' => g'
  | Raise _ => g
  end.

(** One timeout of [status_timer]. *)
Definition tick (g : gui) (f : file_state) : gui :=
  if status_timer_active g then check_engine_status g f else g.

(** Successive reads of the status file. *)
Definition reads (g : gui) (fs : list file_state) : gui :=
  fold_left check_engine_status fs g.

(** What the label shows for a record. *)
Definition shown (o : jobj) : string :=
  "Status: Engine: " +:+ py_str (get o "message" (JStr "Unknown")).

End FakeTool.

(** *** [tools/Vision_Tester/main_gui.py] and [engine.py] *)

Module VisionTester.
Import StatusFile.

(** The [QProgressBar] of the window: its range and its value. *)
Record progress_bar := {
  minimum : Z;
  maximum : Z;
  value : Z;
}.

(** Whether [QProgressBar.setValue(n)] changes the value: a value outside
    [minimum..maximum] is ignored without any error, unless minimum and
    maximum are both 0 (the bar is then a busy indicator and stores every
    value). *)
Definition takes (b : progress_bar) (n : Z) : bool :=
  bool_decide (minimum b ≤ n ≤ maximum b)%Z
  || bool_decide (minimum b = 0 ∧ maximum b = 0)%Z.

Definition bar_setValue (n : Z) (b : progress_bar) : progress_bar :=
  if takes b n
  then {| minimum := minimum b; maximum := maximum b; value := n |}
  else b.

(** The widgets the reader writes (both found in the window). *)
Record gui := {
  prg_progress : progress_bar;
  txt_log : list string;
  status_timer_active : bool;
}.

Section Reader.

(** The conversion of the argument of [setValue] to a C [int], which
    belongs to the Qt binding: [None] when the call raises instead (a
    string, an integer that does not fit). *)
Variable convert : jval -> option Z.

(** [self.prg_progress.setValue(v)] *)
Definition setValue (v : jval) (g : gui) : res gui :=
  match convert v with
  | Some n => Ok {| prg_progress := bar_setValue n (prg_progress g);
                    txt_log := txt_log g;
                    status_timer_active := status_timer_active g |}
  | None => Raise TypeError
  end.

(** [log(message)], with [error=False]. *)
Definition log (message : string) (g : gui) : gui :=
  {| prg_progress := prg_progress g;
     txt_log := txt_log g ++ ["✓ " +:+ message];
     status_timer_active := status_timer_active g |}.

Definition stop_timer (g : gui) : gui :=
  {| prg_progress := prg_progress g;
     txt_log := txt_log g;
     status_timer_active := false |}.

Definition update_progress_from_status_body (g : gui) (j : json) : res gui :=
  progress ← json_get j "progress" (JInt 0);
  message ← json_get j "message" (JStr "");
  g1 ← setValue progress g;
  let g2 := if truthy message then log (py_str message) g1 else g1 in
  terminal ← status_in j ["complete"; "error"];
  Ok (if (terminal : bool) then stop_timer g2 else g2).

(** [update_progress_from_status]: [except Exception: pass]. *)
Definition update_progress_from_status (g : gui) (f : file_state) : gui :=
  match f with
  | Missing => g
  | Unreadable _ => g
  | Parsed j =>
      match update_progress_from_status_body g j with
      | Ok g' => g'
      | Raise _ => g
      end
  end.

(** One timeout of [status_timer]. *)
Definition tick (g : gui) (f : file_state) : gui :=
  if status_timer_active g then update_progress_from_status g f else g.

(** Successive reads of the status file. *)
Definition reads (g : gui) (fs : list file_state) : gui :=
  fold_left update_progress_from_status fs g.

(** The progress a bar [b] takes from one content of the file: that of an
    object whose progress converts to an integer in the range of [b]. *)
Definition taken (b : progress_bar) (f : file_state) : option Z :=
  match f with
  | Parsed (JObject o) =>
      match convert (get o "progress" (JInt 0)) with
      | Some n => if takes b n then Some n else None
      | None => None
      end
  | _ => None
  end.

(** The last progress of [fs] that the bar takes. *)
Definition last_taken (b : progress_bar) (fs : list file_state) : option Z :=
  last (omap (taken b) fs).

End Reader.

(** [run_detection] of the engine, as the records it writes: [detect]
    is [None] when the detector returns and the text of its exception
    otherwise; [t1], [t2] are the times of the two writes. *)
Inductive mode :=
  | Single
  | Batch
  | OtherMode (m : string).

Definition run_detection (m : mode) (input_name : string) (detect : option string)
    (t1 t2 : string) : list jobj * bool :=
  let failed (e : string) :=
    StatusFile.update_status "error" 0 ("Detection failed: " +:+ e) t2 in
  match m with
  | Single =>
      let w1 := StatusFile.update_status "running" 50 ("Processing: " +:+ input_name) t1 in
      match detect with
      | None =>
          ([w1; StatusFile.update_status "complete" 100 "Single image detection complete" t2],
           true)
      | Some e => ([w1; failed e], false)
      end
  | Batch =>
      let w1 := StatusFile.update_status "running" 30 "Starting batch processing" t1 in
      match detect with
      | None =>
          ([w1; StatusFile.update_status "complete" 100 "Batch detection complete" t2],
           true)
      | Some e => ([w1; failed e], false)
      end
  | OtherMode m =>
      ([failed ("Unknown mode: " +:+ m +:+ ". Use 'single' or 'batch'")], false)
  end.

End VisionTester.

(** ** Sample data *)

Module Sample.
Import Controller.

Definition fake_tool : jobj :=
  list_to_map [("id", JStr "fake_tool"); ("display_name", JStr "Fake Tool");
               ("path", JStr "tools/FakeTool"); ("entry_point", JStr "main_gui.py")].

(** A second entry that reuses the id of [fake_tool]. *)
Definition fake_tool_again : jobj :=
  list_to_map [("id", JStr "fake_tool"); ("display_name", JStr "Fake Tool (copy)");
               ("path", JStr "tools/FakeTool2"); ("entry_point", JStr "main_gui.py")].

(** An entry without the [display_name] and [path] members. *)
Definition nameless_tool : jobj :=
  list_to_map [("id", JStr "md_converter"); ("entry_point", JStr "main_gui.py")].

Definition studio_config : config_doc :=
  {| launcher_version := Some (JStr "1.0.0"); tools := Some [fake_tool] |}.

Definition duplicate_config : config_doc :=
  {| launcher_version := Some (JStr "1.0.0");
     tools := Some [nameless_tool; fake_tool; fake_tool_again] |}.

Definition venv_python : path := ["tools/FakeTool"; ".venv"; "Scripts"; "python.exe"].

Definition backslash : string := String (Ascii.ascii_of_nat 92) "".

(** A system on which the interpreter of [fake_tool] is the only file
    that exists. *)
Definition only_venv : os :=
  {| path_str := String.concat backslash;
     path_exists := fun p => bool_decide (p = venv_python) |}.

(** A system on which no file exists. *)
Definition nothing_exists : os :=
  {| path_str := String.concat backslash;
     path_exists := fun _ => false |}.

(** The process object the first launch of [fake_tool] creates. *)
Definition first_process : qprocess :=
  {| proc_id := 0;
     program := path_str only_venv venv_python;
     arguments := [path_str only_venv ["tools/FakeTool"; "main_gui.py"]];
     workingDirectory := path_str only_venv ["tools/FakeTool"] |}.

Definition launched_once : controller :=
  step (startup studio_config) (LaunchTool only_venv (JStr "fake_tool")).

(** The launch of [fake_tool] when the interpreter is there but cannot be
    started. *)
Definition failed_launch : controller :=
  match launch_tool FailedToStart only_venv (startup studio_config) (JStr "fake_tool") with
  | Ok s => s
  | Raise _ => startup studio_config
  end.

Definition launched_twice : controller :=
  step launched_once (LaunchTool only_venv (JStr "fake_tool")).

(** The stale re-delivery scenario: progress 40, then an earlier record
    with progress 10. *)
Definition newer_record : jobj :=
  StatusFile.update_status "running" 40 "Processing" "2025-01-01T10:00:00.020000".

Definition stale_record : jobj :=
  StatusFile.update_status "running" 10 "Loading" "2025-01-01T10:00:00.010000".

(** A record whose progress is beyond 100. *)
Definition overshoot_record : jobj :=
  StatusFile.update_status "running" 150 "Processing" "2025-01-01T10:00:00.030000".

Definition completed_record : jobj :=
  StatusFile.update_status "completed" 100 "Test completed successfully"
    "2025-01-01T10:00:01.000000".

Definition stopped_record : jobj :=
  StatusFile.update_status "stopped" 0 "Stopped by user" "2025-01-01T10:00:02.000000".

(** The binding takes an integer that fits a C [int] and nothing else. *)
Definition c_int (v : jval) : option Z :=
  match v with
  | JInt n => if bool_decide (-2147483648 ≤ n ≤ 2147483647)%Z then Some n else None
  | JStr _ => None
  end.

Definition fake_gui : FakeTool.gui :=
  {| FakeTool.lbl_status := "Status: Ready"; FakeTool.status_timer_active := true |}.

(** A progress bar with the range 0 to 100. *)
Definition percent_bar : VisionTester.progress_bar :=
  {| VisionTester.minimum := 0; VisionTester.maximum := 100; VisionTester.value := 0 |}.

Definition vision_gui : VisionTester.gui :=
  {| VisionTester.prg_progress := percent_bar;
     VisionTester.txt_log := [];
     VisionTester.status_timer_active := true |}.

End Sample.

(** ** The tool list of the controller: [refresh_tool_list],
    [on_launch_clicked] *)

Module ToolList.
Import Controller.

(** A [QListWidgetItem]: its text and the data stored under
    [Qt.ItemDataRole.UserRole]. *)
Record list_item := {
  text : string;
  data : jval;
}.

#[global] Instance list_item_eq_dec : EqDecision list_item.
Proof. solve_decision. Defined.

(** The two widgets [refresh_tool_list] writes. *)
Record widgets := {
  lst_tools : list list_item;
  txt_tool_info : string;
}.

(** [tool.get('enabled', True)] as a condition.  JSON [true] and [false]
    load as Python's [True] and [False], the integers 1 and 0. *)
Definition enabled (tool : jobj) : bool :=
  truthy (get tool "enabled" (JInt 1)).

(** [QListWidgetItem(tool['display_name'])] followed by
    [item.setData(UserRole, tool['id'])]; the constructor takes a [str]. *)
Definition make_item (tool : jobj) : res list_item :=
  name ← getitem tool "display_name";
  match name with
  | JInt _ => Raise TypeError
  | JStr s =>
      id ← getitem tool "id";
      Ok {| text := s; data := id |}
  end.

(** The loop of [refresh_tool_list]: the items in the list when the loop
    ends, and the exception that ended it, if any. *)
Fixpoint add_items (ts : list jobj) (items : list list_item)
    : list list_item * option exn :=
  match ts with
  | [] => (items, None)
  | tool :: rest =>
      if enabled tool then
        match make_item tool with
        | Ok item => add_items rest (items ++ [item])
        | Raise e => (items, Some e)
        end
      else add_items rest items
  end.

Definition no_tools_html : string :=
  "<p><b>No tools registered</b></p>"
  +:+ "<p>Click 'Add Tool' to register your first tool.</p>".

(** [refresh_tool_list]: the widgets afterwards and the exception that
    leaves the method, if any (only [AttributeError] is caught). *)
Definition refresh_tool_list (cfg : config_doc) (ui : widgets) : widgets * option exn :=
  match default [] (tools cfg) with
  | [] => ({| lst_tools := []; txt_tool_info := no_tools_html |}, None)
  | ts =>
      let r := add_items ts [] in
      ({| lst_tools := r.1; txt_tool_info := txt_tool_info ui |}, r.2)
  end.

(** An entry that, if enabled, has what an item is made of. *)
Definition showable (t : jobj) : Prop :=
  enabled t = true ->
  ∃ n id, t !! "display_name" = Some (JStr n) ∧ t !! "id" = Some id.

(** An item and the entry it was made from. *)
Definition shows (it : list_item) (t : jobj) : Prop :=
  t !! "display_name" = Some (JStr (text it)) ∧ t !! "id" = Some (data it).

(** [on_launch_clicked]: [selected] is [self.lst_tools.selectedItems()]. *)
Definition on_launch_clicked (r : start_result) (w : os) (s : controller)
    (selected : list list_item) : res controller :=
  match selected with
  | [] => Ok (emit (MsgWarning "No Selection" "Please select a tool to launch.") s)
  | item :: _ => launch_tool r w s (data item)
  end.

End ToolList.

(** ** Observations on the controller state *)

Module Observe.
Import Controller.

(** An entry that has an id, other than [i]. *)
Definition other (i : jval) (u : jobj) : Prop :=
  is_Some (u !! "id") ∧ u !! "id" ≠ Some i.

(** The tool id a call is about. *)
Definition call_id (c : call) : option jval :=
  match c with
  | LaunchTool _ i | Finished i | ErrorOccurred i => Some i
  | CloseRequest _ => None
  end.

(** The processes started so far, in order. *)
Definition started (tr : list event) : list qprocess :=
  omap (fun e => match e with ProcStart p => Some p | _ => None end) tr.

(** How many times the window was hidden. *)
Definition hides (tr : list event) : nat :=
  length (filter (fun e => e = WinHide) tr).

(** The trace and the table agree: the processes started are numbered in
    order, the window was hidden once for each, every handle is one of
    them, and two ids never hold the same one. *)
Definition consistent (s : controller) : Prop :=
  proc_id <$> started (trace s) = seq 0 (next_proc s)
  ∧ hides (trace s) = next_proc s
  ∧ (∀ i h, active_processes s !! i = Some h -> h ∈ started (trace s))
  ∧ (∀ i j h h', i ≠ j -> active_processes s !! i = Some h ->
       active_processes s !! j = Some h' -> proc_id h ≠ proc_id h').

End Observe.

(** ** The engine of Vision Tester: [engine.py], [detector_factory.py] *)

Module VisionEngine.
Import StatusFile.

(** An exception, with the text [str(e)] gives.  [NoAttribute ty a] is
    the [AttributeError] of [x.a] on an [x] of type [ty]. *)
Inductive error :=
  | ImportError (msg : string)
  | ValueError (msg : string)
  | FileNotFound (msg : string)
  | NoAttribute (type_name attribute : string)
  | OtherError (msg : string).

Definition str (e : error) : string :=
  match e with
  | ImportError msg | ValueError msg | FileNotFound msg | OtherError msg => msg
  | NoAttribute ty a => "'" +:+ ty +:+ "' object has no attribute '" +:+ a +:+ "'"
  end.

(** [s.endswith(suffix)] *)
Definition endswith (s suffix : string) : bool :=
  let n := String.length s in
  let m := String.length suffix in
  if decide (m ≤ n) then String.eqb (String.substring (n - m) m s) suffix else false.

(** [DetectorFactory.create_detector]: [None] when a detector is returned.
    [construct] is the exception of [UltralyticsDetector(...)], if it
    raises. *)
Definition create_detector (ULTRALYTICS_AVAILABLE : bool) (construct : option error)
    (model_name : string) : option error :=
  if endswith model_name ".pt" then
    if negb ULTRALYTICS_AVAILABLE then
      Some (ImportError ("Ultralytics not installed. Install with:" +:+ Controller.nl
                         +:+ "pip install ultralytics"))
    else construct
  else
    Some (ValueError
            ("Unknown model type: " +:+ model_name +:+ Controller.nl
             +:+ "Supported formats:" +:+ Controller.nl
             +:+ "  - Ultralytics: .pt files (yolov5, yolov8, yolov9, yolov10, yolo11, yolo12)")).

(** The [model] member of the configuration, as far as [load_model]
    reads it: an object with or without a scalar [name], or a value of
    another type (a string, a number, a list, [None]). *)
Inductive model_member :=
  | ModelObject (name : option jval)
  | ModelOther (type_name : string).

(** What [json.load] gave for [config.json]: an object with or without a
    [model] member, or a value of another type. *)
Inductive engine_config :=
  | ConfigObject (model : option model_member)
  | ConfigOther (type_name : string).

(** [self.config.get('model', {}).get('name', 'yolo11x.pt')]: the name, or
    the exception raised.  (The two lookups that follow it in [load_model]
    go through the same objects and raise nothing more.) *)
Definition model_name_of (c : engine_config) : error + jval :=
  match c with
  | ConfigOther ty => inl (NoAttribute ty "get")
  | ConfigObject None => inr (JStr "yolo11x.pt")
  | ConfigObject (Some (ModelOther ty)) => inl (NoAttribute ty "get")
  | ConfigObject (Some (ModelObject name)) => inr (default (JStr "yolo11x.pt") name)
  end.

(** Whether the lookups of [load_model] raise. *)
Definition lookup_raises (c : engine_config) : bool :=
  match model_name_of c with
  | inl _ => true
  | inr _ => false
  end.

(** What one execution of the engine meets: the configuration, the
    detector framework, the file system at the input and output paths, the
    detector, and the clock ([now k] is the time of the [k]-th status
    write).  No keyboard interrupt. *)
Record world := {
  config : engine_config;
  ULTRALYTICS_AVAILABLE : bool;
  construct : option error;
  isfile : bool;
  isdir : bool;
  makedirs : option error;
  detect : option string;
  now : nat -> string;
}.

(** The command line: [--mode], [--input], the name [Path(input).name]. *)
Record arguments := {
  mode : VisionTester.mode;
  input : string;
  input_name : string;
}.

(** [load_model]: the records written and the value returned.  The
    lookups in the configuration come first, inside the [try]; a name that
    is a number has no [endswith]. *)
Definition load_model (w : world) : list jobj * bool :=
  let failed (e : error) (k : nat) :=
    update_status "error" 0 ("Model loading failed: " +:+ str e) (now w k) in
  match model_name_of (config w) with
  | inl e => ([failed e 1], false)
  | inr model_name =>
      let loading :=
        update_status "running" 10 ("Loading model: " +:+ py_str model_name) (now w 1) in
      let created :=
        match model_name with
        | JStr name => create_detector (ULTRALYTICS_AVAILABLE w) (construct w) name
        | JInt _ => Some (NoAttribute "int" "endswith")
        end in
      match created with
      | None => ([loading; update_status "running" 20 "Model loaded" (now w 2)], true)
      | Some e => ([loading; failed e 2], false)
      end
  end.

(** The input validation and [os.makedirs] of [run]. *)
Definition prepare (w : world) (a : arguments) : option error :=
  match mode a with
  | VisionTester.Single =>
      if negb (isfile w)
      then Some (FileNotFound ("Input file not found: " +:+ input a))
      else makedirs w
  | VisionTester.Batch =>
      if negb (isdir w)
      then Some (FileNotFound ("Input folder not found: " +:+ input a))
      else makedirs w
  | VisionTester.OtherMode _ => makedirs w
  end.

(** [run]: the records handed to [update_status], in order, and the value
    returned.  ([update_status] logs a failed write and goes on.) *)
Definition run (w : world) (a : arguments) : list jobj * bool :=
  let start := update_status "running" 0 "Starting Vision Tester Engine" (now w 0) in
  let lm := load_model w in
  if negb lm.2 then (start :: lm.1, false)
  else
    match prepare w a with
    | Some e =>
        (start :: lm.1
         ++ [update_status "error" 0 ("Engine error: " +:+ str e) (now w 3)],
         false)
    | None =>
        let rd := VisionTester.run_detection (mode a) (input_name a) (detect w)
                    (now w 3) (now w 4) in
        (start :: lm.1 ++ rd.1, rd.2)
    end.

(** The progress a record carries. *)
Definition progress_of (o : jobj) : Z :=
  match get o "progress" (JInt 0) with
  | JInt n => n
  | JStr _ => 0
  end.

(** The status a record carries. *)
Definition status_of (o : jobj) : option string :=
  match o !! "status" with
  | Some (JStr st) => Some st
  | _ => None
  end.

(** A record written by [update_status] with status [st], progress [p]
    and a message that is not empty. *)
Definition written (sp : string * Z) (o : jobj) : Prop :=
  ∃ m t, o = update_status sp.1 sp.2 m t ∧ m ≠ "".

(** The successive contents of the status file during a run, as a reader
    that polls after every write finds them. *)
Definition as_files (records : list jobj) : list file_state :=
  (fun o => Parsed (JObject o)) <$> records.

End VisionEngine.

(** ** More sample data *)

Module Sample2.
Import Controller.

(** A disabled entry and an enabled one that reuses its id. *)
Definition retired_tool : jobj :=
  list_to_map [("id", JStr "vision"); ("display_name", JStr "Vision (old)");
               ("enabled", JInt 0);
               ("path", JStr "tools/Vision_old"); ("entry_point", JStr "main_gui.py")].

Definition vision_tool : jobj :=
  list_to_map [("id", JStr "vision"); ("display_name", JStr "Vision Tester");
               ("path", JStr "tools/Vision_Tester"); ("entry_point", JStr "main_gui.py")].

(** An entry without an [id]. *)
Definition anonymous_tool : jobj :=
  list_to_map [("display_name", JStr "Anonymous"); ("path", JStr "tools/x");
               ("entry_point", JStr "main_gui.py")].

(** An entry whose [path] is a number. *)
Definition numeric_path_tool : jobj :=
  list_to_map [("id", JStr "numeric"); ("display_name", JStr "Numeric");
               ("path", JInt 7); ("entry_point", JStr "main_gui.py")].

Definition shadow_config : config_doc :=
  {| launcher_version := None;
     tools := Some [retired_tool; Sample.fake_tool; vision_tool] |}.

Definition broken_config : config_doc :=
  {| launcher_version := None;
     tools := Some [Sample.fake_tool; anonymous_tool; vision_tool; numeric_path_tool] |}.

Definition numeric_config : config_doc :=
  {| launcher_version := None; tools := Some [numeric_path_tool] |}.

Definition nameless_config : config_doc :=
  {| launcher_version := None; tools := Some [Sample.nameless_tool] |}.

Definition everything_exists : os :=
  {| path_str := String.concat Sample.backslash;
     path_exists := fun _ => true |}.

Definition empty_ui : ToolList.widgets :=
  {| ToolList.lst_tools := []; ToolList.txt_tool_info := "" |}.

Definition clock (k : nat) : string := "2025-01-01T10:00:0" +:+ pretty k.

Definition good_world : VisionEngine.world :=
  {| VisionEngine.config :=
       VisionEngine.ConfigObject
         (Some (VisionEngine.ModelObject (Some (JStr "yolo11x.pt"))));
     VisionEngine.ULTRALYTICS_AVAILABLE := true;
     VisionEngine.construct := None;
     VisionEngine.isfile := true;
     VisionEngine.isdir := false;
     VisionEngine.makedirs := None;
     VisionEngine.detect := None;
     VisionEngine.now := clock |}.

(** A configuration whose [model] member is the model name itself,
    [{"model": "yolo11x.pt"}]. *)
Definition flat_config_world : VisionEngine.world :=
  {| VisionEngine.config := VisionEngine.ConfigObject (Some (VisionEngine.ModelOther "str"));
     VisionEngine.ULTRALYTICS_AVAILABLE := true;
     VisionEngine.construct := None;
     VisionEngine.isfile := true;
     VisionEngine.isdir := false;
     VisionEngine.makedirs := None;
     VisionEngine.detect := None;
     VisionEngine.now := clock |}.

Definition single_image : VisionEngine.arguments :=
  {| VisionEngine.mode := VisionTester.Single;
     VisionEngine.input := "images/cat.jpg";
     VisionEngine.input_name := "cat.jpg" |}.

End Sample2.

(** ** Properties of the controller *)

Import Controller.

Section Registry.

(** [find_tool] returns the first entry whose id matches, whatever
    follows it. *)
Lemma find_tool_first (l1 : list jobj) (t : jobj) (l2 : list jobj) (i : jval) :
  Forall (fun u : jobj => is_Some (u !! "id") ∧ u !! "id" ≠ Some i) l1 ->
  t !! "id" = Some i ->
  find_tool (l1 ++ t :: l2) i = Ok (Some t).
Proof.
  intros Hl1 Ht. induction Hl1 as [|u l1 [[v Hv] Hne] _ IH]; simpl.
  - unfold getitem. rewrite Ht. simpl. by rewrite decide_True.
  - unfold getitem. rewrite Hv. simpl.
    rewrite decide_False; [exact IH | congruence].
Qed.

(** A found entry carries the id that was looked up. *)
Lemma find_tool_id (l : list jobj) (i : jval) (t : jobj) :
  find_tool l i = Ok (Some t) -> t !! "id" = Some i.
Proof.
  induction l as [|u l IH]; simpl; [done|].
  unfold getitem. destruct (u !! "id") as [v|] eqn:Hv; simpl; [|done].
  destruct (decide (v = i)) as [->|]; [|exact IH].
  by intros [= <-].
Qed.

End Registry.

Section Launch.

Variable w : os.

(** The three ways in which [launch_tool] returns. *)
Lemma launch_tool_inv (r : start_result) (s s' : controller) (i : jval) :
  launch_tool r w s i = Ok s' ->
  (get_tool_by_id (config s) i = Ok None ∧ s' = emit (not_registered i) s)
  ∨ (∃ (t : jobj) p e n,
        get_tool_by_id (config s) i = Ok (Some t)
        ∧ t !! "path" = Some (JStr p) ∧ t !! "entry_point" = Some (JStr e)
        ∧ t !! "display_name" = Some n
        ∧ path_exists w (venv_python_of [p]) = false
        ∧ s' = emit (environment_missing w n (venv_python_of [p])) s)
  ∨ (∃ (t : jobj) p e,
        get_tool_by_id (config s) i = Ok (Some t)
        ∧ t !! "path" = Some (JStr p) ∧ t !! "entry_point" = Some (JStr e)
        ∧ path_exists w (venv_python_of [p]) = true
        ∧ s' = start_process r w s i [p] [p; e] (venv_python_of [p])).
Proof.
  unfold launch_tool.
  destruct (get_tool_by_id (config s) i) as [[t|]|] eqn:Hfind; simpl; [| |done].
  2:{ intros [= <-]. by left. }
  unfold getitem.
  destruct (t !! "path") as [[p|]|] eqn:Hp; simpl; [|done|done].
  destruct (t !! "entry_point") as [[e|]|] eqn:He; simpl; [|done|done].
  destruct (path_exists w (venv_python_of [p])) eqn:Hex; simpl.
  - intros [= <-]. right; right. by exists t, p, e.
  - destruct (t !! "display_name") as [n|] eqn:Hn; simpl; [|done].
    intros [= <-]. right; left. by exists t, p, e, n.
Qed.

(** The launch goes through when the entry is found, its path members are
    strings and the interpreter of its environment exists. *)
Lemma launch_tool_started (r : start_result) (s : controller) (i : jval) (t : jobj)
    (p e : string) :
  get_tool_by_id (config s) i = Ok (Some t) ->
  t !! "path" = Some (JStr p) ->
  t !! "entry_point" = Some (JStr e) ->
  path_exists w (venv_python_of [p]) = true ->
  launch_tool r w s i = Ok (start_process r w s i [p] [p; e] (venv_python_of [p])).
Proof.
  intros Hfind Hp He Hex. unfold launch_tool, getitem.
  rewrite Hfind. simpl. rewrite Hp. simpl. rewrite He. simpl.
  by rewrite Hex.
Qed.

End Launch.

(** Fields of the state after [start_process]. *)
Lemma start_process_trace w s i tp ep vp :
  trace (start_process Started w s i tp ep vp)
  = trace s ++ [WinHide;
                ProcStart {| proc_id := next_proc s;
                             program := path_str w vp;
                             arguments := [path_str w ep];
                             workingDirectory := path_str w tp |}].
Proof. simpl. by rewrite <- app_assoc. Qed.

Lemma start_process_active w s i tp ep vp :
  active_processes (start_process Started w s i tp ep vp)
  = <[i := {| proc_id := next_proc s;
              program := path_str w vp;
              arguments := [path_str w ep];
              workingDirectory := path_str w tp |}]> (active_processes s).
Proof. reflexivity. Qed.

Lemma on_tool_finished_active s i :
  active_processes (on_tool_finished s i) = delete i (active_processes s).
Proof.
  unfold on_tool_finished.
  destruct (decide (is_Some (active_processes s !! i))) as [|Hn]; simpl; [done|].
  symmetry. apply delete_id. by apply eq_None_not_Some.
Qed.

Lemma on_tool_finished_trace s i :
  trace (on_tool_finished s i) = trace s ++ [WinShow; WinActivate].
Proof.
  unfold on_tool_finished.
  destruct (decide (is_Some (active_processes s !! i))); simpl;
    by rewrite <- app_assoc.
Qed.

Lemma on_tool_finished_config s i : config (on_tool_finished s i) = config s.
Proof.
  unfold on_tool_finished.
  by destruct (decide (is_Some (active_processes s !! i))).
Qed.

Lemma on_tool_error_ok s i (t : jobj) n :
  get_tool_by_id (config s) i = Ok (Some t) ->
  t !! "display_name" = Some n ->
  on_tool_error s i = Ok (on_tool_finished (emit (tool_error n) s) i).
Proof.
  intros Hfind Hn. unfold on_tool_error, getitem.
  rewrite Hfind. simpl. by rewrite Hn.
Qed.

(** *** Registry *)

(** C10. A configuration that repeats an id is loaded as it is, and
    [get_tool_by_id] returns the first entry that carries the id, in
    configuration order, whatever entries follow it. *)
Theorem lookup_returns_first_match (doc : config_doc)
    (l1 : list jobj) (t : jobj) (l2 : list jobj) (i : jval) :
  tools doc = Some (l1 ++ t :: l2) ->
  Forall (fun u : jobj => is_Some (u !! "id") ∧ u !! "id" ≠ Some i) l1 ->
  t !! "id" = Some i ->
  load_config (SrcParsed doc) = Loaded doc
  ∧ get_tool_by_id doc i = Ok (Some t).
Proof.
  intros Htools Hl1 Ht. split; [reflexivity|].
  unfold get_tool_by_id. rewrite Htools. simpl.
  by apply find_tool_first.
Qed.

Lemma lookup_returns_first_match_witness :
  tools Sample.duplicate_config
  = Some ([Sample.nameless_tool] ++ Sample.fake_tool :: [Sample.fake_tool_again])
  ∧ Sample.fake_tool_again !! "id" = Some (JStr "fake_tool")
  ∧ load_config (SrcParsed Sample.duplicate_config) = Loaded Sample.duplicate_config
  ∧ get_tool_by_id Sample.duplicate_config (JStr "fake_tool") = Ok (Some Sample.fake_tool).
Proof.
  split; [reflexivity|]. split; [reflexivity|].
  apply (lookup_returns_first_match Sample.duplicate_config
           [Sample.nameless_tool] Sample.fake_tool [Sample.fake_tool_again]).
  - reflexivity.
  - constructor; [|constructor]. split; [by eexists|]. vm_compute. discriminate.
  - reflexivity.
Defined.

(** C6 (as stated, refuted). A document in which two entries share an id
    and one entry lacks [display_name] and [path] is loaded without any
    failure. *)
Lemma load_config_accepts_malformed :
  tools Sample.duplicate_config
  = Some [Sample.nameless_tool; Sample.fake_tool; Sample.fake_tool_again]
  ∧ Sample.fake_tool !! "id" = Sample.fake_tool_again !! "id"
  ∧ Sample.nameless_tool !! "display_name" = None
  ∧ Sample.nameless_tool !! "path" = None
  ∧ load_config (SrcParsed Sample.duplicate_config) = Loaded Sample.duplicate_config.
Proof. by vm_compute. Qed.

(** C6 (amended). [load_config] ends in the fatal "Config Error" dialog
    and [sys.exit(1)] when the file is absent; every document that parses
    is returned as it is, with no check of its fields or ids. *)
Theorem load_config_fatal_when_absent :
  load_config (SrcRaises FileNotFoundError)
  = FatalExit (MsgCritical "Config Error" "studio_config.json not found!") 1
  ∧ ∀ doc, load_config (SrcParsed doc) = Loaded doc.
Proof. split; [reflexivity|]. by intros doc. Qed.

(** *** Shutdown *)

(** C8. With a non-empty table, [closeEvent] asks the question before
    anything else, accepts the event only on [Yes], and on [No] ignores
    it and leaves the table and the window as they were. *)
Theorem close_requires_confirmation (s : controller) (reply : standard_button) :
  active_processes s ≠ ∅ ->
  trace (closeEvent s reply).1
  = trace s ++ [MsgQuestion "Tools Running" "Tools are still running. Close anyway?"]
  ∧ (closeEvent s reply).2 = bool_decide (reply = Yes)
  ∧ active_processes (closeEvent s reply).1 = active_processes s
  ∧ visible (closeEvent s reply).1 = visible s
  ∧ (reply = No -> (closeEvent s reply).2 = false).
Proof.
  intros Hne. unfold closeEvent.
  rewrite bool_decide_false by done. simpl.
  destruct reply; simpl; by repeat split.
Qed.

Lemma close_requires_confirmation_witness :
  active_processes Sample.launched_once ≠ ∅
  ∧ (closeEvent Sample.launched_once No).2 = false.
Proof.
  assert (Hne : active_processes Sample.launched_once ≠ ∅).
  { intros H. apply (f_equal (fun m => m !! JStr "fake_tool")) in H.
    vm_compute in H. discriminate. }
  split; [exact Hne|].
  apply (close_requires_confirmation Sample.launched_once No Hne).
  reflexivity.
Defined.

(** *** Visibility *)





(** *** The handle table *)

Lemma on_tool_error_inv s s' i :
  on_tool_error s i = Ok s' ->
  ∃ n, s' = on_tool_finished (emit (tool_error n) s) i.
Proof.
  unfold on_tool_error, getitem.
  destruct (get_tool_by_id (config s) i) as [[t|]|]; simpl; [|done|done].
  destruct (t !! "display_name") as [n|]; simpl; [|done].
  intros [= <-]. by exists n.
Qed.

Lemma on_tool_finished_next_proc s i :
  next_proc (on_tool_finished s i) = next_proc s.
Proof.
  unfold on_tool_finished.
  by destruct (decide (is_Some (active_processes s !! i))).
Qed.

Lemma fresh_on_tool_finished s i : fresh s -> fresh (on_tool_finished s i).
Proof.
  intros Hs j h. rewrite on_tool_finished_active, on_tool_finished_next_proc.
  intros Hj. apply lookup_delete_Some in Hj as [_ Hj]. by apply (Hs j).
Qed.

Lemma fresh_step s c : fresh s -> fresh (step s c).
Proof.
  intros Hs. destruct c as [w i|i|i|reply]; simpl.
  - destruct (launch_tool Started w s i) as [s'|] eqn:Hl; [|done].
    destruct (launch_tool_inv _ _ _ _ _ Hl)
      as [[_ ->]|[(t & p & e & n & _ & _ & _ & _ & _ & ->)
                 |(t & p & e & _ & _ & _ & _ & ->)]]; [done|done|].
    intros j h. rewrite start_process_active. simpl.
    destruct (decide (i = j)) as [->|Hne].
    + rewrite lookup_insert_eq. intros [= <-]. simpl. lia.
    + rewrite lookup_insert_ne by done. intros Hj.
      specialize (Hs j h Hj). lia.
  - by apply fresh_on_tool_finished.
  - destruct (on_tool_error s i) as [s'|] eqn:He; [|done].
    destruct (on_tool_error_inv _ _ _ He) as [n ->].
    by apply fresh_on_tool_finished.
  - unfold closeEvent.
    destruct (negb (bool_decide (active_processes s = ∅))); [|done].
    by destruct (decide (reply = No)).
Qed.

Lemma fresh_run doc cs : fresh (run (startup doc) cs).
Proof.
  unfold run. assert (H0 : fresh (startup doc)) by (intros i h; done).
  revert H0. generalize (startup doc).
  induction cs as [|c cs IH]; intros s Hs; [done|].
  simpl. apply IH. by apply fresh_step.
Qed.

Lemma filter_key_insert (m : gmap jval qprocess) (i : jval) (q : qprocess) :
  filter (fun kv : jval * qprocess => kv.1 = i) (<[i := q]> m) = {[i := q]}.
Proof.
  apply map_eq. intros j. destruct (decide (j = i)) as [->|Hne].
  - rewrite lookup_singleton_eq. apply map_lookup_filter_Some.
    split; [apply lookup_insert_eq|done].
  - rewrite lookup_singleton_ne by done. apply map_lookup_filter_None.
    right. intros x _ Hc. simpl in Hc. congruence.
Qed.

(** C2 (as stated, refuted). With a handle for ["fake_tool"] in the table,
    a second launch of that id returns normally, shows no warning, starts
    a second process and replaces the handle. *)
Lemma relaunch_not_refused :
  is_Some (active_processes Sample.launched_once !! JStr "fake_tool")
  ∧ launch_tool Started Sample.only_venv Sample.launched_once (JStr "fake_tool")
    = Ok Sample.launched_twice
  ∧ active_processes Sample.launched_twice ≠ active_processes Sample.launched_once
  ∧ ∃ q, trace Sample.launched_twice
         = trace Sample.launched_once ++ [WinHide; ProcStart q].
Proof.
  split; [by eexists|]. split; [by vm_compute|]. split.
  - intros H. apply (f_equal (fun m => m !! JStr "fake_tool")) in H.
    vm_compute in H. discriminate.
  - eexists. by vm_compute.
Qed.

(** C2 (amended). In every state the window can reach, a launch of an id
    that already has a handle (entry found, interpreter present) is not
    refused: it hides the window, starts a new process and stores it under
    the id in place of the earlier handle; the other handles are kept and
    the table still has one handle per id. *)
Theorem relaunch_replaces_handle (doc : config_doc) (cs : list call) (w : os)
    (i : jval) (h : qprocess) (t : jobj) (p e : string) :
  let s := run (startup doc) cs in
  active_processes s !! i = Some h ->
  get_tool_by_id (config s) i = Ok (Some t) ->
  t !! "path" = Some (JStr p) ->
  t !! "entry_point" = Some (JStr e) ->
  path_exists w (venv_python_of [p]) = true ->
  ∃ s' q,
    launch_tool Started w s i = Ok s'
    ∧ trace s' = trace s ++ [WinHide; ProcStart q]
    ∧ active_processes s' !! i = Some q
    ∧ q ≠ h
    ∧ (∀ j, j ≠ i -> active_processes s' !! j = active_processes s !! j)
    ∧ size (active_processes s') = size (active_processes s)
    ∧ size (filter (fun kv : jval * qprocess => kv.1 = i) (active_processes s')) = 1.
Proof.
  intros s Hh Hfind Hp He Hex.
  eexists _, _. split; [by apply (launch_tool_started w Started s i t p e)|].
  split; [apply start_process_trace|].
  rewrite start_process_active.
  split; [apply lookup_insert_eq|]. split.
  - intros Heq. pose proof (fresh_run doc cs i h Hh) as Hlt.
    fold s in Hlt. rewrite <- Heq in Hlt. simpl in Hlt. lia.
  - split; [intros j Hj; by rewrite lookup_insert_ne|].
    split; [by eapply map_size_insert_Some|].
    rewrite filter_key_insert. apply map_size_singleton.
Qed.

Lemma relaunch_replaces_handle_witness :
  ∃ s' q,
    launch_tool Started Sample.only_venv Sample.launched_once (JStr "fake_tool") = Ok s'
    ∧ trace s' = trace Sample.launched_once ++ [WinHide; ProcStart q]
    ∧ active_processes s' !! JStr "fake_tool" = Some q
    ∧ q ≠ Sample.first_process
    ∧ (∀ j, j ≠ JStr "fake_tool" ->
         active_processes s' !! j = active_processes Sample.launched_once !! j)
    ∧ size (active_processes s') = size (active_processes Sample.launched_once)
    ∧ size (filter (fun kv : jval * qprocess => kv.1 = JStr "fake_tool")
              (active_processes s')) = 1.
Proof.
  apply (relaunch_replaces_handle Sample.studio_config
           [LaunchTool Sample.only_venv (JStr "fake_tool")] Sample.only_venv
           (JStr "fake_tool") Sample.first_process Sample.fake_tool
           "tools/FakeTool" "main_gui.py");
    reflexivity.
Defined.

(** No call changes the configuration. *)
Lemma step_config s c : config (step s c) = config s.
Proof.
  destruct c as [w i|i|i|reply]; simpl.
  - destruct (launch_tool Started w s i) as [s'|] eqn:Hl; [|done].
    by destruct (launch_tool_inv _ _ _ _ _ Hl)
      as [[_ ->]|[(t & p & e & n & _ & _ & _ & _ & _ & ->)
                 |(t & p & e & _ & _ & _ & _ & ->)]].
  - apply on_tool_finished_config.
  - destruct (on_tool_error s i) as [s'|] eqn:He; [|done].
    destruct (on_tool_error_inv _ _ _ He) as [n ->].
    by rewrite on_tool_finished_config.
  - unfold closeEvent.
    destruct (negb (bool_decide (active_processes s = ∅))); [|done].
    by destruct (decide (reply = No)).
Qed.

Lemma run_config cs s : config (run s cs) = config s.
Proof.
  revert s. induction cs as [|c cs IH]; intros s; [done|].
  simpl. by rewrite IH, step_config.
Qed.

(** The table after [start_process], whatever [start()] did: the new
    process is stored under the id, in the place of any earlier handle. *)
Lemma start_process_active_any r w s i tp ep vp :
  active_processes (start_process r w s i tp ep vp)
  = <[i := new_process w s tp ep vp]> (active_processes s).
Proof.
  destruct r; [reflexivity|]. unfold start_process. cbv zeta.
  match goal with |- context [on_tool_error ?s2 i] => set (s2' := s2) end.
  destruct (on_tool_error s2' i) as [s'|] eqn:Herr; [|reflexivity].
  destruct (on_tool_error_inv _ _ _ Herr) as [n ->].
  cbn [active_processes set_active]. rewrite on_tool_finished_active.
  apply insert_delete_eq.
Qed.

(** A start that fails inside [start()]: the error is reported and the
    window shown again before [start()] returns. *)
Lemma start_process_failed w s i tp ep vp (t : jobj) (n : jval) :
  get_tool_by_id (config s) i = Ok (Some t) ->
  t !! "display_name" = Some n ->
  trace (start_process FailedToStart w s i tp ep vp)
  = trace s ++ [WinHide; ProcStart (new_process w s tp ep vp);
                tool_error n; WinShow; WinActivate]
  ∧ visible (start_process FailedToStart w s i tp ep vp) = true
  ∧ config (start_process FailedToStart w s i tp ep vp) = config s.
Proof.
  intros Hfind Hn. unfold start_process. cbv zeta.
  match goal with |- context [on_tool_error ?s2 i] => set (s2' := s2) end.
  rewrite (on_tool_error_ok s2' i t n Hfind Hn).
  cbn [trace visible config set_active].
  rewrite on_tool_finished_trace, on_tool_finished_config.
  split; [|split; [|reflexivity]].
  - simpl. by rewrite <- !app_assoc.
  - unfold on_tool_finished.
    by destruct (decide (is_Some (active_processes (emit (tool_error n) s2') !! i))).
Qed.

(** Whatever [start()] did, the window was hidden and the process started
    first. *)
Lemma start_process_trace_any r w s i tp ep vp :
  ∃ rest, trace (start_process r w s i tp ep vp)
          = trace s ++ [WinHide; ProcStart (new_process w s tp ep vp)] ++ rest.
Proof.
  destruct r.
  - exists []. by rewrite start_process_trace.
  - unfold start_process. cbv zeta.
    match goal with |- context [on_tool_error ?s2 i] => set (s2' := s2) end.
    assert (Hs2 : trace s2' = trace s ++ [WinHide; ProcStart (new_process w s tp ep vp)])
      by (simpl; by rewrite <- app_assoc).
    destruct (on_tool_error s2' i) as [s'|] eqn:Herr.
    + destruct (on_tool_error_inv _ _ _ Herr) as [n ->].
      exists [tool_error n; WinShow; WinActivate].
      cbn [trace set_active]. rewrite on_tool_finished_trace. cbn [trace emit].
      rewrite Hs2. by rewrite <- !app_assoc.
    + exists []. cbn [trace set_active]. by rewrite Hs2.
Qed.

Lemma start_process_config r w s i tp ep vp :
  config (start_process r w s i tp ep vp) = config s.
Proof.
  destruct r; [reflexivity|]. unfold start_process. cbv zeta.
  match goal with |- context [on_tool_error ?s2 i] => set (s2' := s2) end.
  destruct (on_tool_error s2' i) as [s'|] eqn:Herr; [|reflexivity].
  destruct (on_tool_error_inv _ _ _ Herr) as [n ->].
  cbn [config set_active]. by rewrite on_tool_finished_config.
Qed.

(** A call about one tool id leaves the handle of every other id. *)
Lemma step_other_id (s : controller) (c : call) (j : jval) :
  Observe.call_id c ≠ Some j ->
  active_processes (step s c) !! j = active_processes s !! j.
Proof.
  intros Hj. destruct c as [w i|i|i|reply]; cbn [step Observe.call_id] in *.
  - destruct (launch_tool Started w s i) as [s'|] eqn:Hl; [|done].
    destruct (launch_tool_inv _ _ _ _ _ Hl)
      as [[_ ->]|[(t & p & e & n & _ & _ & _ & _ & _ & ->)
                 |(t & p & e & _ & _ & _ & _ & ->)]]; [done|done|].
    rewrite start_process_active. apply lookup_insert_ne. congruence.
  - rewrite on_tool_finished_active. apply lookup_delete_ne. congruence.
  - destruct (on_tool_error s i) as [s'|] eqn:He; [|done].
    destruct (on_tool_error_inv _ _ _ He) as [n ->].
    rewrite on_tool_finished_active. simpl. apply lookup_delete_ne. congruence.
  - unfold closeEvent.
    destruct (negb (bool_decide (active_processes s = ∅))); [|done].
    by destruct (decide (reply = No)).
Qed.

Lemma run_other_id (cs : list call) (s : controller) (j : jval) :
  Forall (fun c => Observe.call_id c ≠ Some j) cs ->
  active_processes (run s cs) !! j = active_processes s !! j.
Proof.
  intros Hcs. revert s. induction Hcs as [|c cs Hc _ IH]; intros s; [done|].
  simpl. fold (run (step s c) cs). by rewrite IH, step_other_id.
Qed.

(** An error signal that the event loop delivers is reported and the
    handle of the id removed. *)
Lemma late_error_cleaned (s : controller) (i : jval) (t : jobj) (n : jval) :
  get_tool_by_id (config s) i = Ok (Some t) ->
  t !! "display_name" = Some n ->
  ∃ s2,
    on_tool_error s i = Ok s2
    ∧ step s (ErrorOccurred i) = s2
    ∧ trace s2 = trace s ++ [tool_error n; WinShow; WinActivate]
    ∧ active_processes s2 !! i = None
    ∧ visible s2 = true.
Proof.
  intros Hfind Hn.
  assert (Herr : on_tool_error s i = Ok (on_tool_finished (emit (tool_error n) s) i))
    by (by apply (on_tool_error_ok s i t n)).
  eexists. split; [exact Herr|]. split; [simpl; by rewrite Herr|].
  split; [rewrite on_tool_finished_trace; simpl; by rewrite <- app_assoc|].
  split; [rewrite on_tool_finished_active; apply lookup_delete_eq|].
  unfold on_tool_finished.
  by destruct (decide (is_Some (active_processes (emit (tool_error n) s) !! i))).
Qed.

(** C3 (not met by the code).  A launch that reaches
    [process.start()] leaves exactly one handle for the id in the table,
    the process just built, whether the start went through or failed.
    When the start fails, the error has been reported and the window shown
    again inside the launch, and the handle is stored all the same: after
    that error observation a handle for the id exists.  Whatever calls come
    in between, a later [on_tool_finished] or [on_tool_error] for the id
    leaves no handle, and the id can be launched again. *)
Theorem handle_lifecycle (r : start_result) (w : os) (s : controller) (i : jval)
    (t : jobj) (p e : string) (n : jval) :
  get_tool_by_id (config s) i = Ok (Some t) ->
  t !! "path" = Some (JStr p) ->
  t !! "entry_point" = Some (JStr e) ->
  t !! "display_name" = Some n ->
  path_exists w (venv_python_of [p]) = true ->
  ∃ s1 q,
    launch_tool r w s i = Ok s1
    ∧ trace s1
      = trace s ++ [WinHide; ProcStart q]
        ++ match r with
           | Started => []
           | FailedToStart =>
               [MsgCritical "Tool Error" (py_str n +:+ " encountered an error.");
                WinShow; WinActivate]
           end
    ∧ active_processes s1 !! i = Some q
    ∧ size (filter (fun kv : jval * qprocess => kv.1 = i) (active_processes s1)) = 1
    ∧ (∀ cs, ∃ s2, on_tool_error (run s1 cs) i = Ok s2)
    ∧ (∀ cs s2,
         s2 = on_tool_finished (run s1 cs) i ∨ on_tool_error (run s1 cs) i = Ok s2 ->
         active_processes s2 !! i = None
         ∧ ∃ s3 q', launch_tool r w s2 i = Ok s3 ∧ active_processes s3 !! i = Some q').
Proof.
  intros Hfind Hp He Hn Hex.
  set (s1 := start_process r w s i [p] [p; e] (venv_python_of [p])).
  assert (Hcfg : ∀ cs, config (run s1 cs) = config s).
  { intros cs. rewrite run_config. apply start_process_config. }
  assert (Hagain : ∀ s2, config s2 = config s ->
            ∃ s3 q', launch_tool r w s2 i = Ok s3 ∧ active_processes s3 !! i = Some q').
  { intros s2 Hs2. rewrite <- Hs2 in Hfind. eexists _, _.
    split; [by apply (launch_tool_started w r s2 i t p e)|].
    rewrite start_process_active_any. apply lookup_insert_eq. }
  exists s1, (new_process w s [p] [p; e] (venv_python_of [p])).
  split; [by apply (launch_tool_started w r s i t p e)|]. split.
  { destruct r.
    - unfold s1. rewrite start_process_trace. by rewrite app_nil_r.
    - unfold s1.
      destruct (start_process_failed w s i [p] [p; e] (venv_python_of [p]) t n
                  Hfind Hn) as (Htr & _).
      by rewrite Htr. }
  split; [unfold s1; rewrite start_process_active_any; apply lookup_insert_eq|].
  split; [unfold s1; rewrite start_process_active_any, filter_key_insert;
          apply map_size_singleton|].
  split.
  - intros cs. eexists. apply (on_tool_error_ok _ i t n); [by rewrite Hcfg|done].
  - intros cs s2 [->|Herr].
    + split; [rewrite on_tool_finished_active; apply lookup_delete_eq|].
      apply Hagain. by rewrite on_tool_finished_config.
    + destruct (on_tool_error_inv _ _ _ Herr) as [n' ->].
      split; [rewrite on_tool_finished_active; apply lookup_delete_eq|].
      apply Hagain. rewrite on_tool_finished_config. apply (Hcfg cs).
Qed.

Lemma handle_lifecycle_witness :
  ∃ s1 q,
    launch_tool FailedToStart Sample.only_venv (startup Sample.studio_config)
      (JStr "fake_tool") = Ok s1
    ∧ trace s1
      = trace (startup Sample.studio_config) ++ [WinHide; ProcStart q]
        ++ [MsgCritical "Tool Error" "Fake Tool encountered an error.";
            WinShow; WinActivate]
    ∧ active_processes s1 !! JStr "fake_tool" = Some q
    ∧ size (filter (fun kv : jval * qprocess => kv.1 = JStr "fake_tool")
              (active_processes s1)) = 1
    ∧ (∀ cs, ∃ s2, on_tool_error (run s1 cs) (JStr "fake_tool") = Ok s2)
    ∧ (∀ cs s2,
         s2 = on_tool_finished (run s1 cs) (JStr "fake_tool")
         ∨ on_tool_error (run s1 cs) (JStr "fake_tool") = Ok s2 ->
         active_processes s2 !! JStr "fake_tool" = None
         ∧ ∃ s3 q', launch_tool FailedToStart Sample.only_venv s2 (JStr "fake_tool") = Ok s3
                    ∧ active_processes s3 !! JStr "fake_tool" = Some q').
Proof.
  apply (handle_lifecycle FailedToStart Sample.only_venv (startup Sample.studio_config)
           (JStr "fake_tool") Sample.fake_tool "tools/FakeTool" "main_gui.py"
           (JStr "Fake Tool"));
    reflexivity.
Defined.

(** C5 (not met by the code).  When the program cannot be
    started, [on_tool_error] runs inside [process.start()]: it shows the
    "Tool Error" dialog with the display name of the tool and shows the
    window again, but finds no handle to remove, and [launch_tool] then
    stores the handle of the process that did not start.  The handle stays
    through every later call that is not about the id, and a close request
    still asks whether to close while tools are running.  The same signal
    delivered by the event loop after a launch whose start went through
    is reported in the same way and does remove the handle. *)
Theorem spawn_failure_reported_not_cleaned (w : os) (s : controller) (i : jval)
    (t : jobj) (p e : string) (n : jval) :
  get_tool_by_id (config s) i = Ok (Some t) ->
  t !! "path" = Some (JStr p) ->
  t !! "entry_point" = Some (JStr e) ->
  t !! "display_name" = Some n ->
  path_exists w (venv_python_of [p]) = true ->
  (∃ s1 q,
     launch_tool FailedToStart w s i = Ok s1
     ∧ trace s1
       = trace s ++ [WinHide; ProcStart q;
                     MsgCritical "Tool Error" (py_str n +:+ " encountered an error.");
                     WinShow; WinActivate]
     ∧ visible s1 = true
     ∧ active_processes s1 !! i = Some q
     ∧ (∀ cs, Forall (fun c => Observe.call_id c ≠ Some i) cs ->
          active_processes (run s1 cs) !! i = Some q)
     ∧ (∀ reply,
          trace (closeEvent s1 reply).1
          = trace s1 ++ [MsgQuestion "Tools Running"
                           "Tools are still running. Close anyway?"]
          ∧ ((closeEvent s1 reply).2 = false ↔ reply = No)))
  ∧ (∃ s1, launch_tool Started w s i = Ok s1
       ∧ ∀ cs,
           let s2 := step (run s1 cs) (ErrorOccurred i) in
           trace s2
           = trace (run s1 cs)
             ++ [MsgCritical "Tool Error" (py_str n +:+ " encountered an error.");
                 WinShow; WinActivate]
           ∧ active_processes s2 !! i = None
           ∧ visible s2 = true).
Proof.
  intros Hfind Hp He Hn Hex. split.
  - set (s1 := start_process FailedToStart w s i [p] [p; e] (venv_python_of [p])).
    set (q := new_process w s [p] [p; e] (venv_python_of [p])).
    assert (Hq : active_processes s1 !! i = Some q).
    { unfold s1. rewrite start_process_active_any. apply lookup_insert_eq. }
    destruct (start_process_failed w s i [p] [p; e] (venv_python_of [p]) t n Hfind Hn)
      as (Htr & Hv & _). fold s1 q in Htr, Hv.
    exists s1, q.
    split; [by apply (launch_tool_started w FailedToStart s i t p e)|].
    split; [exact Htr|]. split; [exact Hv|]. split; [exact Hq|]. split.
    + intros cs Hcs. by rewrite run_other_id.
    + intros reply. unfold closeEvent.
      assert (Hne : active_processes s1 ≠ ∅).
      { intros Hemp. rewrite Hemp, lookup_empty in Hq. discriminate. }
      rewrite bool_decide_false by done. simpl.
      destruct reply; simpl; split; try done; by split.
  - eexists. split; [by apply (launch_tool_started w Started s i t p e)|].
    intros cs.
    destruct (late_error_cleaned (run (start_process Started w s i [p] [p; e]
                                         (venv_python_of [p])) cs) i t n)
      as (s2 & _ & Hstep & Htr & Hact & Hv); [by rewrite run_config|done|].
    cbv zeta. rewrite Hstep. by repeat split.
Qed.

(** The launch of ["fake_tool"] on a system where its interpreter exists
    and cannot be started, evaluated: the error is reported, the handle of
    the dead process is in the table afterwards, and a close request is
    held up by it. *)
Lemma failed_start_evaluated :
  path_exists Sample.only_venv Sample.venv_python = true
  ∧ launch_tool FailedToStart Sample.only_venv (startup Sample.studio_config)
      (JStr "fake_tool")
    = Ok Sample.failed_launch
  ∧ trace Sample.failed_launch
    = [WinShow; WinHide; ProcStart Sample.first_process;
       MsgCritical "Tool Error" "Fake Tool encountered an error.";
       WinShow; WinActivate]
  ∧ active_processes Sample.failed_launch !! JStr "fake_tool"
    = Some Sample.first_process
  ∧ closeEvent Sample.failed_launch No = (emit tools_running Sample.failed_launch, false).
Proof. by vm_compute. Qed.

Lemma spawn_failure_reported_not_cleaned_witness :
  ∃ s1 q,
    launch_tool FailedToStart Sample.only_venv (startup Sample.studio_config)
      (JStr "fake_tool") = Ok s1
    ∧ trace s1
      = trace (startup Sample.studio_config)
        ++ [WinHide; ProcStart q;
            MsgCritical "Tool Error" "Fake Tool encountered an error.";
            WinShow; WinActivate]
    ∧ visible s1 = true
    ∧ active_processes s1 !! JStr "fake_tool" = Some q
    ∧ (∀ cs, Forall (fun c => Observe.call_id c ≠ Some (JStr "fake_tool")) cs ->
         active_processes (run s1 cs) !! JStr "fake_tool" = Some q)
    ∧ (∀ reply,
         trace (closeEvent s1 reply).1
         = trace s1 ++ [MsgQuestion "Tools Running"
                          "Tools are still running. Close anyway?"]
         ∧ ((closeEvent s1 reply).2 = false ↔ reply = No)).
Proof.
  apply (spawn_failure_reported_not_cleaned Sample.only_venv
           (startup Sample.studio_config) (JStr "fake_tool") Sample.fake_tool
           "tools/FakeTool" "main_gui.py" (JStr "Fake Tool"));
    reflexivity.
Defined.

(** *** Environment validation *)

(** C4 (as stated, refuted). On a system where the entry point of
    ["fake_tool"] does not exist, the launch is not aborted: no warning is
    shown, the process is started and its handle is recorded. *)
Lemma launch_ignores_entry_point :
  path_exists Sample.only_venv ["tools/FakeTool"; "main_gui.py"] = false
  ∧ launch_tool Started Sample.only_venv (startup Sample.studio_config) (JStr "fake_tool")
    = Ok Sample.launched_once
  ∧ is_Some (active_processes Sample.launched_once !! JStr "fake_tool")
  ∧ ∃ q, trace Sample.launched_once = [WinShow; WinHide; ProcStart q].
Proof.
  split; [by vm_compute|]. split; [by vm_compute|].
  split; [by eexists|]. eexists. by vm_compute.
Qed.

(** C4 (amended). The check made before a launch is the existence of
    [<path>/.venv/Scripts/python.exe] and nothing else.  When it is
    absent, the "Environment Missing" warning names the tool and the
    expected path, and the table, the window and the process list are
    left alone; when it is present the process is started with that
    interpreter.  Nothing else of the file system decides the outcome. *)
Theorem launch_checks_interpreter_only (w : os) (s : controller) (i : jval)
    (t : jobj) (p e : string) (n : jval) :
  get_tool_by_id (config s) i = Ok (Some t) ->
  t !! "path" = Some (JStr p) ->
  t !! "entry_point" = Some (JStr e) ->
  t !! "display_name" = Some n ->
  (path_exists w (venv_python_of [p]) = false ->
     ∀ r, ∃ s', launch_tool r w s i = Ok s'
       ∧ trace s'
         = trace s ++ [MsgWarning "Environment Missing"
                         ("Virtual environment not found for " +:+ py_str n +:+ "."
                          +:+ nl +:+ "Expected: " +:+ path_str w (venv_python_of [p]))]
       ∧ active_processes s' = active_processes s
       ∧ visible s' = visible s
       ∧ next_proc s' = next_proc s)
  ∧ (path_exists w (venv_python_of [p]) = true ->
     ∃ s' q, launch_tool Started w s i = Ok s'
       ∧ trace s' = trace s ++ [WinHide; ProcStart q]
       ∧ program q = path_str w (venv_python_of [p])
       ∧ active_processes s' !! i = Some q)
  ∧ (∀ r w', path_str w' = path_str w ->
       path_exists w' (venv_python_of [p]) = path_exists w (venv_python_of [p]) ->
       launch_tool r w' s i = launch_tool r w s i).
Proof.
  intros Hfind Hp He Hn. split; [|split].
  - intros Hex r. eexists. split.
    { unfold launch_tool, getitem. rewrite Hfind. simpl.
      rewrite Hp. simpl. rewrite He. simpl. rewrite Hex. simpl. by rewrite Hn. }
    by repeat split.
  - intros Hex. eexists _, _.
    split; [by apply (launch_tool_started w Started s i t p e)|].
    split; [apply start_process_trace|]. split; [reflexivity|].
    rewrite start_process_active. apply lookup_insert_eq.
  - intros r w' Hstr Hex'. unfold launch_tool, getitem. rewrite Hfind. simpl.
    rewrite Hp. simpl. rewrite He. simpl. rewrite Hex'.
    unfold environment_missing, start_process, new_process. by rewrite Hstr.
Qed.

Lemma launch_checks_interpreter_only_witness :
  path_exists Sample.nothing_exists (venv_python_of ["tools/FakeTool"]) = false
  ∧ ∃ s', launch_tool Started Sample.nothing_exists (startup Sample.studio_config)
            (JStr "fake_tool") = Ok s'
      ∧ trace s'
        = [WinShow;
           MsgWarning "Environment Missing"
             ("Virtual environment not found for Fake Tool." +:+ nl
              +:+ "Expected: tools/FakeTool" +:+ Sample.backslash +:+ ".venv"
              +:+ Sample.backslash +:+ "Scripts" +:+ Sample.backslash +:+ "python.exe")]
      ∧ active_processes s' = active_processes (startup Sample.studio_config)
      ∧ visible s' = visible (startup Sample.studio_config)
      ∧ next_proc s' = next_proc (startup Sample.studio_config).
Proof.
  split; [reflexivity|].
  apply (launch_checks_interpreter_only Sample.nothing_exists
           (startup Sample.studio_config) (JStr "fake_tool") Sample.fake_tool
           "tools/FakeTool" "main_gui.py" (JStr "Fake Tool"));
    reflexivity.
Defined.

(** ** Properties of the status readers *)

Section Readers.
Import StatusFile.

Lemma fake_reads_snoc g fs f :
  FakeTool.reads g (fs ++ [f]) = FakeTool.check_engine_status (FakeTool.reads g fs) f.
Proof. unfold FakeTool.reads. by rewrite fold_left_app. Qed.

(** The label after a sequence of reads is the rendering of the last
    record read, whatever the timestamps. *)
Lemma fake_reads_last g fs :
  FakeTool.lbl_status (FakeTool.reads g fs)
  = match last_record fs with
    | Some o => FakeTool.shown o
    | None => FakeTool.lbl_status g
    end.
Proof.
  induction fs as [|f fs IH] using rev_ind; [done|].
  rewrite fake_reads_snoc. unfold last_record in *. rewrite omap_app.
  destruct f as [|x|[o|]]; simpl; rewrite ?app_nil_r; try exact IH.
  by rewrite last_snoc.
Qed.

Variable convert : jval -> option Z.

Lemma vision_reads_snoc g fs f :
  VisionTester.reads convert g (fs ++ [f])
  = VisionTester.update_progress_from_status convert (VisionTester.reads convert g fs) f.
Proof. unfold VisionTester.reads. by rewrite fold_left_app. Qed.

(** One read of an object, written out. *)
Lemma vision_read_object g (o : jobj) :
  VisionTester.update_progress_from_status convert g (Parsed (JObject o))
  = match convert (get o "progress" (JInt 0)) with
    | Some n =>
        let g1 := {| VisionTester.prg_progress :=
                       VisionTester.bar_setValue n (VisionTester.prg_progress g);
                     VisionTester.txt_log := VisionTester.txt_log g;
                     VisionTester.status_timer_active :=
                       VisionTester.status_timer_active g |} in
        let g2 := if truthy (get o "message" (JStr ""))
                  then VisionTester.log (py_str (get o "message" (JStr ""))) g1
                  else g1 in
        if match o !! "status" with
           | Some (JStr st) => bool_decide (st ∈ ["complete"; "error"])
           | _ => false
           end
        then VisionTester.stop_timer g2 else g2
    | None => g
    end.
Proof.
  unfold VisionTester.update_progress_from_status,
    VisionTester.update_progress_from_status_body, VisionTester.setValue.
  cbn [StatusFile.json_get StatusFile.status_in mbind res_bind bind].
  by destruct (convert (get o "progress" (JInt 0))).
Qed.

(** The bar after one read: it holds the progress it took, or is as it
    was. *)
Lemma vision_read_bar g f :
  VisionTester.prg_progress (VisionTester.update_progress_from_status convert g f)
  = match VisionTester.taken convert (VisionTester.prg_progress g) f with
    | Some n => {| VisionTester.minimum := VisionTester.minimum (VisionTester.prg_progress g);
                   VisionTester.maximum := VisionTester.maximum (VisionTester.prg_progress g);
                   VisionTester.value := n |}
    | None => VisionTester.prg_progress g
    end.
Proof.
  destruct f as [|x|[o|]]; try done.
  rewrite vision_read_object. unfold VisionTester.taken.
  destruct (convert (get o "progress" (JInt 0))) as [n|]; [|done].
  cbv zeta. unfold VisionTester.bar_setValue.
  destruct (VisionTester.takes (VisionTester.prg_progress g) n);
    destruct (truthy (get o "message" (JStr "")));
    by destruct (o !! "status") as [[st|]|]; simpl; try case_bool_decide.
Qed.

(** No read changes the range of the bar, so that what the bar takes
    stays the same. *)
Lemma vision_read_taken g f f' :
  VisionTester.taken convert
    (VisionTester.prg_progress (VisionTester.update_progress_from_status convert g f)) f'
  = VisionTester.taken convert (VisionTester.prg_progress g) f'.
Proof.
  rewrite vision_read_bar.
  by destruct (VisionTester.taken convert (VisionTester.prg_progress g) f).
Qed.

Lemma vision_reads_last g fs :
  VisionTester.prg_progress (VisionTester.reads convert g fs)
  = {| VisionTester.minimum := VisionTester.minimum (VisionTester.prg_progress g);
       VisionTester.maximum := VisionTester.maximum (VisionTester.prg_progress g);
       VisionTester.value :=
         default (VisionTester.value (VisionTester.prg_progress g))
           (VisionTester.last_taken convert (VisionTester.prg_progress g) fs) |}.
Proof.
  induction fs as [|f fs IH] using rev_ind.
  { simpl. by destruct (VisionTester.prg_progress g). }
  rewrite vision_reads_snoc, vision_read_bar.
  unfold VisionTester.last_taken in *. rewrite omap_app.
  assert (Ht : VisionTester.taken convert
                 (VisionTester.prg_progress (VisionTester.reads convert g fs)) f
               = VisionTester.taken convert (VisionTester.prg_progress g) f).
  { clear IH. induction fs as [|f' fs IH'] using rev_ind; [done|].
    by rewrite vision_reads_snoc, vision_read_taken. }
  rewrite Ht. simpl omap.
  destruct (VisionTester.taken convert (VisionTester.prg_progress g) f) as [n|].
  - rewrite last_snoc. simpl. by rewrite IH.
  - by rewrite app_nil_r.
Qed.

(** A record whose progress the bar does not take leaves the bar as it
    was, and is logged and obeyed all the same. *)
Lemma vision_read_ignored g (o : jobj) (n : Z) :
  convert (get o "progress" (JInt 0)) = Some n ->
  VisionTester.takes (VisionTester.prg_progress g) n = false ->
  let g' := VisionTester.update_progress_from_status convert g (Parsed (JObject o)) in
  VisionTester.prg_progress g' = VisionTester.prg_progress g
  ∧ VisionTester.txt_log g'
    = VisionTester.txt_log g
      ++ (if truthy (get o "message" (JStr ""))
          then ["✓ " +:+ py_str (get o "message" (JStr ""))] else []).
Proof.
  intros Hc Ht g'. unfold g'. rewrite vision_read_object, Hc. cbv zeta.
  unfold VisionTester.bar_setValue. rewrite Ht.
  destruct (truthy (get o "message" (JStr "")));
    destruct (o !! "status") as [[st|]|]; simpl; try case_bool_decide; simpl;
    by rewrite ?app_nil_r; destruct g.
Qed.

End Readers.

(** C1 (as stated, refuted). The record with progress 40 is read first and
    the earlier record with progress 10 afterwards: both readers then show
    the earlier record. *)
Lemma stale_record_regresses_display :
  StatusFile.older Sample.stale_record Sample.newer_record = true
  ∧ FakeTool.lbl_status
      (FakeTool.reads Sample.fake_gui [Parsed (JObject Sample.newer_record)])
    = "Status: Engine: Processing"
  ∧ FakeTool.lbl_status
      (FakeTool.reads Sample.fake_gui
         [Parsed (JObject Sample.newer_record); Parsed (JObject Sample.stale_record)])
    = "Status: Engine: Loading"
  ∧ VisionTester.value
      (VisionTester.prg_progress
         (VisionTester.reads Sample.c_int Sample.vision_gui
            [Parsed (JObject Sample.newer_record)]))
    = 40%Z
  ∧ VisionTester.value
      (VisionTester.prg_progress
         (VisionTester.reads Sample.c_int Sample.vision_gui
            [Parsed (JObject Sample.newer_record); Parsed (JObject Sample.stale_record)]))
    = 10%Z.
Proof. by vm_compute. Qed.

(** C1 (amended). After any sequence of reads, each reader shows the
    content of the last record it took, whatever its timestamp: the label
    of FakeTool shows the message of the last object read; the progress
    bar of Vision Tester keeps its range and shows the progress of the last
    object whose progress converts to an integer inside that range.  A
    record whose progress lies outside the range is read and logged but
    leaves the bar as it was.  A read that finds no file, an unreadable
    file or a value that is not an object changes nothing. *)
Theorem reader_shows_last_read :
  (∀ g fs,
     FakeTool.lbl_status (FakeTool.reads g fs)
     = match StatusFile.last_record fs with
       | Some o => "Status: Engine: " +:+ py_str (get o "message" (JStr "Unknown"))
       | None => FakeTool.lbl_status g
       end)
  ∧ (∀ convert g fs,
       VisionTester.prg_progress (VisionTester.reads convert g fs)
       = {| VisionTester.minimum := VisionTester.minimum (VisionTester.prg_progress g);
            VisionTester.maximum := VisionTester.maximum (VisionTester.prg_progress g);
            VisionTester.value :=
              match VisionTester.last_taken convert (VisionTester.prg_progress g) fs with
              | Some n => n
              | None => VisionTester.value (VisionTester.prg_progress g)
              end |})
  ∧ (∀ convert g (o : jobj) n,
       convert (get o "progress" (JInt 0)) = Some n ->
       VisionTester.takes (VisionTester.prg_progress g) n = false ->
       let g' := VisionTester.update_progress_from_status convert g (Parsed (JObject o)) in
       VisionTester.prg_progress g' = VisionTester.prg_progress g
       ∧ VisionTester.txt_log g'
         = VisionTester.txt_log g
           ++ (if truthy (get o "message" (JStr ""))
               then ["✓ " +:+ py_str (get o "message" (JStr ""))] else []))
  ∧ (∀ g f, (∀ o, f ≠ Parsed (JObject o)) ->
       FakeTool.check_engine_status g f = g)
  ∧ (∀ convert g f, (∀ o, f ≠ Parsed (JObject o)) ->
       VisionTester.update_progress_from_status convert g f = g).
Proof.
  split; [exact fake_reads_last|]. split.
  { intros convert g fs. rewrite vision_reads_last.
    by destruct (VisionTester.last_taken convert (VisionTester.prg_progress g) fs). }
  split; [exact vision_read_ignored|]. split.
  - intros g f Hf. destruct f as [|x|[o|]]; try done. by destruct (Hf o).
  - intros convert g f Hf. destruct f as [|x|[o|]]; try done. by destruct (Hf o).
Qed.

(** The record with progress 150, read after the one with progress 40,
    is logged and leaves a bar of range 0 to 100 at 40. *)
Lemma reader_shows_last_read_witness :
  let g := VisionTester.reads Sample.c_int Sample.vision_gui
             [Parsed (JObject Sample.newer_record)] in
  let g' := VisionTester.update_progress_from_status Sample.c_int g
              (Parsed (JObject Sample.overshoot_record)) in
  VisionTester.value (VisionTester.prg_progress g) = 40%Z
  ∧ VisionTester.prg_progress g' = VisionTester.prg_progress g
  ∧ VisionTester.txt_log g' = VisionTester.txt_log g ++ ["✓ Processing"].
Proof.
  split; [reflexivity|].
  destruct reader_shows_last_read as (_ & _ & H & _).
  exact (H Sample.c_int
           (VisionTester.reads Sample.c_int Sample.vision_gui
              [Parsed (JObject Sample.newer_record)])
           Sample.overshoot_record 150%Z eq_refl eq_refl).
Defined.

(** The timer of Vision Tester after one timeout. *)
Lemma vision_tick_timer convert g f :
  VisionTester.status_timer_active (VisionTester.tick convert g f) = false
  ↔ VisionTester.status_timer_active g = false
    ∨ ∃ o : jobj, f = Parsed (JObject o)
        ∧ is_Some (convert (get o "progress" (JInt 0)))
        ∧ (o !! "status" = Some (JStr "complete") ∨ o !! "status" = Some (JStr "error")).
Proof.
  unfold VisionTester.tick.
  destruct (VisionTester.status_timer_active g) eqn:Hg; [|split; [by left|done]].
  assert (Hno : (∀ o : jobj, f ≠ Parsed (JObject o)) ->
            VisionTester.update_progress_from_status convert g f = g).
  { intros Hf. destruct f as [|x|[o|]]; try done. by destruct (Hf o). }
  assert (Hcase : (∃ o, f = Parsed (JObject o)) ∨ ∀ o, f ≠ Parsed (JObject o)).
  { destruct f as [|x|[o|]]; [by right|by right|left; by exists o|by right]. }
  destruct Hcase as [[o ->]|Hf].
  2:{ rewrite Hno by done. rewrite Hg.
      split; [done|]. intros [|(o & -> & _)]; [done|]. by destruct (Hf o). }
  rewrite vision_read_object.
  destruct (convert (get o "progress" (JInt 0))) as [n|] eqn:Hacc.
  2:{ rewrite Hg. split; [done|].
      intros [|(o' & [= <-] & Ha & _)]; [done|]. rewrite Hacc in Ha. by destruct Ha. }
  cbv zeta.
  set (g2 := if truthy (get o "message" (JStr "")) then _ else _).
  assert (Hg2 : VisionTester.status_timer_active g2 = true).
  { subst g2. by destruct (truthy (get o "message" (JStr ""))). }
  clearbody g2.
  destruct (o !! "status") as [[st|k]|] eqn:Hst.
  - case_bool_decide as Hin.
    + split; [intros _; right; exists o|done].
      split; [done|]. split; [by rewrite Hacc|].
      apply elem_of_cons in Hin as [->|Hin]; [by left|].
      apply elem_of_cons in Hin as [->|Hin]; [by right|].
      by apply elem_of_nil in Hin.
    + rewrite Hg2. split; [done|].
      intros [|(o' & [= <-] & _ & [Hs|Hs])]; [done| |];
        rewrite Hst in Hs; injection Hs as ->; exfalso; apply Hin; set_solver.
  - rewrite Hg2. split; [done|].
    intros [|(o' & [= <-] & _ & [Hs|Hs])]; [done| |]; rewrite Hst in Hs; discriminate.
  - rewrite Hg2. split; [done|].
    intros [|(o' & [= <-] & _ & [Hs|Hs])]; [done| |]; rewrite Hst in Hs; discriminate.
Qed.

(** The last record [run_detection] writes carries one of the two states
    on which the reader of Vision Tester stops. *)
Lemma run_detection_last (m : VisionTester.mode) name detect t1 t2 :
  ∃ o : jobj,
    last (VisionTester.run_detection m name detect t1 t2).1 = Some o
    ∧ (o !! "status" = Some (JStr "complete") ∨ o !! "status" = Some (JStr "error"))
    ∧ (get o "progress" (JInt 0) = JInt 100 ∨ get o "progress" (JInt 0) = JInt 0).
Proof.
  destruct m as [| |m'], detect as [e|]; simpl; eexists; (split; [reflexivity|]);
    split; ((by left) || (by right)).
Qed.

(** C7 (as stated, refuted). A record with state [completed], or with
    state [stopped], leaves the timer of either reader running. *)
Lemma completed_record_keeps_polling :
  Sample.completed_record !! "status" = Some (JStr "completed")
  ∧ Sample.stopped_record !! "status" = Some (JStr "stopped")
  ∧ VisionTester.status_timer_active Sample.vision_gui = true
  ∧ VisionTester.status_timer_active
      (VisionTester.tick Sample.c_int Sample.vision_gui
         (Parsed (JObject Sample.completed_record))) = true
  ∧ VisionTester.status_timer_active
      (VisionTester.tick Sample.c_int Sample.vision_gui
         (Parsed (JObject Sample.stopped_record))) = true
  ∧ FakeTool.status_timer_active Sample.fake_gui = true
  ∧ FakeTool.status_timer_active
      (FakeTool.tick Sample.fake_gui (Parsed (JObject Sample.completed_record))) = true
  ∧ FakeTool.status_timer_active
      (FakeTool.tick Sample.fake_gui (Parsed (JObject Sample.stopped_record))) = true.
Proof. by vm_compute. Qed.

(** C7 (amended). One timeout of the timer of Vision Tester stops the
    timer exactly when the file holds an object whose progress
    [setValue] accepts as an integer (whether or not it lies in the range
    of the bar) and whose state is [complete] or [error]; these are the states of
    the last record [run_detection] writes.  A timeout of the timer of
    FakeTool never stops it. *)
Theorem polling_stops_on_complete_or_error :
  (∀ convert g f,
     VisionTester.status_timer_active (VisionTester.tick convert g f) = false
     ↔ VisionTester.status_timer_active g = false
       ∨ ∃ o : jobj, f = Parsed (JObject o)
           ∧ is_Some (convert (get o "progress" (JInt 0)))
           ∧ (o !! "status" = Some (JStr "complete")
              ∨ o !! "status" = Some (JStr "error")))
  ∧ (∀ m name detect t1 t2,
       ∃ o : jobj,
         last (VisionTester.run_detection m name detect t1 t2).1 = Some o
         ∧ (o !! "status" = Some (JStr "complete")
            ∨ o !! "status" = Some (JStr "error"))
         ∧ (get o "progress" (JInt 0) = JInt 100 ∨ get o "progress" (JInt 0) = JInt 0))
  ∧ (∀ g f,
       FakeTool.status_timer_active (FakeTool.tick g f)
       = FakeTool.status_timer_active g).
Proof.
  split; [exact vision_tick_timer|]. split; [exact run_detection_last|].
  intros g f. unfold FakeTool.tick.
  destruct (FakeTool.status_timer_active g) eqn:Hg; [|done].
  by destruct f as [|x|[o|]].
Qed.


(** ** Further properties of the controller *)

Section Lookup.

Import Observe.

Lemma find_tool_none (ts : list jobj) (i : jval) :
  Forall (other i) ts -> find_tool ts i = Ok None.
Proof.
  induction 1 as [|u ts [[v Hv] Hne] _ IH]; [done|].
  simpl. unfold getitem. rewrite Hv. simpl.
  rewrite decide_False; [exact IH | congruence].
Qed.

Lemma find_tool_raise (l1 : list jobj) (u : jobj) (l2 : list jobj) (i : jval) :
  Forall (other i) l1 -> u !! "id" = None ->
  find_tool (l1 ++ u :: l2) i = Raise (KeyError "id").
Proof.
  intros Hl1 Hu. induction Hl1 as [|u' l1 [[v Hv] Hne] _ IH]; simpl.
  - unfold getitem. by rewrite Hu.
  - unfold getitem. rewrite Hv. simpl.
    rewrite decide_False; [exact IH | congruence].
Qed.

(** The loop ends in exactly one of three ways, decided by the first entry
    that has no id or has the id looked up. *)
Lemma find_tool_cases (ts : list jobj) (i : jval) :
  (Forall (other i) ts ∧ find_tool ts i = Ok None)
  ∨ (∃ l1 t l2, ts = l1 ++ t :: l2 ∧ Forall (other i) l1 ∧ t !! "id" = Some i
                ∧ find_tool ts i = Ok (Some t))
  ∨ (∃ l1 u l2, ts = l1 ++ u :: l2 ∧ Forall (other i) l1 ∧ u !! "id" = None
                ∧ find_tool ts i = Raise (KeyError "id")).
Proof.
  induction ts as [|u ts IH]; [left; by split|].
  destruct (u !! "id") as [v|] eqn:Hv.
  - destruct (decide (v = i)) as [->|Hne].
    + right; left. exists [], u, ts. split; [done|]. split; [constructor|].
      split; [done|]. by apply (find_tool_first [] u ts i).
    + assert (Hu : other i u) by (split; [by eexists|congruence]).
      assert (Hstep : find_tool (u :: ts) i = find_tool ts i).
      { simpl. unfold getitem. rewrite Hv. simpl. by rewrite decide_False. }
      rewrite Hstep.
      destruct IH as [[Hall Hr]|[(l1 & t & l2 & -> & Hl1 & Ht & Hr)
                                |(l1 & u' & l2 & -> & Hl1 & Hu' & Hr)]].
      * left. split; [by constructor|done].
      * right; left. exists (u :: l1), t, l2. by repeat split; [constructor|..].
      * right; right. exists (u :: l1), u', l2. by repeat split; [constructor|..].
  - right; right. exists [], u, ts. split; [done|]. split; [constructor|].
    split; [done|]. by apply (find_tool_raise [] u ts i).
Qed.

(** X1. [get_tool_by_id] returns [None] exactly when every entry has an
    id other than the one looked up; it returns an entry exactly when that
    entry is the first with the id and every entry before it has another
    id; it raises exactly [KeyError('id')], when an entry without id comes
    before any match. *)
Theorem get_tool_by_id_spec (cfg : config_doc) (i : jval) :
  let ts := default [] (tools cfg) in
  (get_tool_by_id cfg i = Ok None ↔ Forall (other i) ts)
  ∧ (∀ t, get_tool_by_id cfg i = Ok (Some t)
          ↔ ∃ l1 l2, ts = l1 ++ t :: l2 ∧ Forall (other i) l1 ∧ t !! "id" = Some i)
  ∧ (∀ e, get_tool_by_id cfg i = Raise e
          ↔ e = KeyError "id"
            ∧ ∃ l1 u l2, ts = l1 ++ u :: l2 ∧ Forall (other i) l1 ∧ u !! "id" = None).
Proof.
  intros ts. unfold get_tool_by_id. fold ts.
  pose proof (find_tool_cases ts i) as Hc. split; [|split].
  - split; [|apply find_tool_none].
    intros Hr. destruct Hc as [[Hall _]|[(l1 & t & l2 & _ & _ & _ & Hr')
                                        |(l1 & u & l2 & _ & _ & _ & Hr')]];
      [done|congruence|congruence].
  - intros t. split.
    + intros Hr. destruct Hc as [[_ Hr']|[(l1 & t' & l2 & Hts & Hl1 & Ht & Hr')
                                         |(l1 & u & l2 & _ & _ & _ & Hr')]];
        [congruence| |congruence].
      rewrite Hr in Hr'. injection Hr' as ->. by exists l1, l2.
    + intros (l1 & l2 & -> & Hl1 & Ht). by apply find_tool_first.
  - intros e. split.
    + intros Hr. destruct Hc as [[_ Hr']|[(l1 & t' & l2 & _ & _ & _ & Hr')
                                         |(l1 & u & l2 & Hts & Hl1 & Hu & Hr')]];
        [congruence|congruence|].
      rewrite Hr in Hr'. injection Hr' as ->. split; [done|]. by exists l1, u, l2.
    + intros (-> & l1 & u & l2 & -> & Hl1 & Hu). by apply find_tool_raise.
Qed.

(** X2. A launch of an id that no entry carries shows the "Tool Not
    Found" warning with the id and does nothing else: the table, the
    window and the processes are as before, and a second attempt
    does the same again. *)
Theorem launch_unregistered (r : start_result) (w : os) (s : controller) (i : jval) :
  Forall (other i) (default [] (tools (config s))) ->
  ∃ s', launch_tool r w s i = Ok s'
    ∧ trace s' = trace s ++ [MsgWarning "Tool Not Found"
                               ("Tool '" +:+ py_str i +:+ "' not registered.")]
    ∧ active_processes s' = active_processes s
    ∧ visible s' = visible s
    ∧ next_proc s' = next_proc s
    ∧ ∃ s'', launch_tool r w s' i = Ok s''
        ∧ active_processes s'' = active_processes s
        ∧ Observe.started (trace s'') = Observe.started (trace s).
Proof.
  intros Hall.
  assert (Hl : ∀ s0, config s0 = config s ->
            launch_tool r w s0 i = Ok (emit (not_registered i) s0)).
  { intros s0 Hcfg. unfold launch_tool, get_tool_by_id. rewrite Hcfg.
    by rewrite (find_tool_none _ _ Hall). }
  eexists. split; [by apply Hl|]. repeat (split; [done|]).
  eexists. split; [by apply Hl|]. split; [done|].
  simpl. unfold Observe.started. rewrite !omap_app. simpl. by rewrite !app_nil_r.
Qed.

Lemma launch_unregistered_witness :
  ∃ s', launch_tool Started Sample.only_venv (startup Sample.studio_config) (JStr "md_converter")
        = Ok s'
    ∧ trace s' = trace (startup Sample.studio_config)
                 ++ [MsgWarning "Tool Not Found"
                       ("Tool '" +:+ py_str (JStr "md_converter") +:+ "' not registered.")]
    ∧ active_processes s' = active_processes (startup Sample.studio_config)
    ∧ visible s' = visible (startup Sample.studio_config)
    ∧ next_proc s' = next_proc (startup Sample.studio_config)
    ∧ ∃ s'', launch_tool Started Sample.only_venv s' (JStr "md_converter") = Ok s''
        ∧ active_processes s'' = active_processes (startup Sample.studio_config)
        ∧ Observe.started (trace s'')
          = Observe.started (trace (startup Sample.studio_config)).
Proof.
  apply (launch_unregistered Started Sample.only_venv (startup Sample.studio_config)
           (JStr "md_converter")).
  repeat constructor; [by eexists|by vm_compute].
Defined.

(** X3. An entry without an id hides every entry after it: a lookup of an
    id that no earlier entry carries raises [KeyError('id')], so a launch
    and an error signal for that id raise too and leave the window as it
    was. *)
Theorem entry_without_id_blocks_lookup (s : controller) (w : os)
    (l1 : list jobj) (u : jobj) (l2 : list jobj) (i : jval) :
  tools (config s) = Some (l1 ++ u :: l2) ->
  Forall (other i) l1 ->
  u !! "id" = None ->
  get_tool_by_id (config s) i = Raise (KeyError "id")
  ∧ (∀ r, launch_tool r w s i = Raise (KeyError "id"))
  ∧ on_tool_error s i = Raise (KeyError "id")
  ∧ step s (LaunchTool w i) = s
  ∧ step s (ErrorOccurred i) = s.
Proof.
  intros Hts Hl1 Hu.
  assert (Hr : get_tool_by_id (config s) i = Raise (KeyError "id")).
  { unfold get_tool_by_id. rewrite Hts. simpl. by apply find_tool_raise. }
  assert (Hl : ∀ r, launch_tool r w s i = Raise (KeyError "id"))
    by (intros r; unfold launch_tool; by rewrite Hr).
  assert (He : on_tool_error s i = Raise (KeyError "id"))
    by (unfold on_tool_error; by rewrite Hr).
  repeat split; try done; simpl; by rewrite ?Hl, ?He.
Qed.

Lemma entry_without_id_blocks_lookup_witness :
  Sample2.vision_tool !! "id" = Some (JStr "vision")
  ∧ get_tool_by_id (config (startup Sample2.broken_config)) (JStr "vision")
    = Raise (KeyError "id")
  ∧ (∀ r, launch_tool r Sample2.everything_exists (startup Sample2.broken_config)
            (JStr "vision")
          = Raise (KeyError "id"))
  ∧ on_tool_error (startup Sample2.broken_config) (JStr "vision") = Raise (KeyError "id")
  ∧ step (startup Sample2.broken_config)
      (LaunchTool Sample2.everything_exists (JStr "vision"))
    = startup Sample2.broken_config
  ∧ step (startup Sample2.broken_config) (ErrorOccurred (JStr "vision"))
    = startup Sample2.broken_config.
Proof.
  split; [reflexivity|].
  apply (entry_without_id_blocks_lookup (startup Sample2.broken_config)
           Sample2.everything_exists [Sample.fake_tool] Sample2.anonymous_tool
           [Sample2.vision_tool; Sample2.numeric_path_tool] (JStr "vision")).
  - reflexivity.
  - repeat constructor; [by eexists|by vm_compute].
  - reflexivity.
Defined.

End Lookup.

Section Supervision.
Import Observe.

(** X4. A launch of an entry whose [path] or [entry_point] is missing or
    is not a string, or whose [display_name] is missing when the warning
    about the environment would need it, raises before anything is shown,
    hidden or started: the window is left as it was. *)
Theorem launch_malformed_entry (r : start_result) (w : os) (s : controller) (i : jval)
    (t : jobj) :
  get_tool_by_id (config s) i = Ok (Some t) ->
  ((t !! "path" = None -> launch_tool r w s i = Raise (KeyError "path"))
   ∧ (∀ n, t !! "path" = Some (JInt n) -> launch_tool r w s i = Raise TypeError)
   ∧ (∀ p, t !! "path" = Some (JStr p) -> t !! "entry_point" = None ->
        launch_tool r w s i = Raise (KeyError "entry_point"))
   ∧ (∀ p n, t !! "path" = Some (JStr p) -> t !! "entry_point" = Some (JInt n) ->
        launch_tool r w s i = Raise TypeError)
   ∧ (∀ p e, t !! "path" = Some (JStr p) -> t !! "entry_point" = Some (JStr e) ->
        path_exists w (venv_python_of [p]) = false -> t !! "display_name" = None ->
        launch_tool r w s i = Raise (KeyError "display_name")))
  ∧ (∀ e, launch_tool Started w s i = Raise e -> step s (LaunchTool w i) = s).
Proof.
  intros Hfind. split.
  - unfold launch_tool, getitem. rewrite Hfind. simpl.
    split; [by intros ->|]. split; [by intros n ->|].
    split; [intros p -> Hp; simpl; by rewrite Hp|].
    split; [intros p n -> Hp; simpl; by rewrite Hp|].
    intros p e -> He Hex Hn. simpl. rewrite He. simpl. rewrite Hex. simpl.
    by rewrite Hn.
  - intros e He. simpl. by rewrite He.
Qed.

Lemma launch_malformed_entry_witness :
  launch_tool Started Sample2.everything_exists (startup Sample2.numeric_config) (JStr "numeric")
  = Raise TypeError
  ∧ launch_tool Started Sample.nothing_exists (startup Sample2.nameless_config)
      (JStr "md_converter") = Raise (KeyError "path").
Proof.
  split.
  - destruct (launch_malformed_entry Started Sample2.everything_exists
                (startup Sample2.numeric_config) (JStr "numeric")
                Sample2.numeric_path_tool eq_refl) as [(_ & H & _) _].
    apply (H 7%Z). reflexivity.
  - destruct (launch_malformed_entry Started Sample.nothing_exists
                (startup Sample2.nameless_config) (JStr "md_converter")
                Sample.nameless_tool eq_refl) as [(H & _) _].
    apply H. reflexivity.
Defined.

(** X5. A call about one tool id never changes the handle of another id;
    a close request changes no handle at all. *)
Theorem calls_leave_other_ids (s : controller) (c : call) (j : jval) :
  call_id c ≠ Some j ->
  active_processes (step s c) !! j = active_processes s !! j.
Proof. apply step_other_id. Qed.

Lemma calls_leave_other_ids_witness :
  active_processes (step Sample.launched_once (Finished (JStr "vision")))
    !! JStr "fake_tool"
  = active_processes Sample.launched_once !! JStr "fake_tool".
Proof.
  apply (calls_leave_other_ids Sample.launched_once (Finished (JStr "vision"))
           (JStr "fake_tool")).
  simpl. discriminate.
Defined.

Lemma on_tool_finished_visible s i : visible (on_tool_finished s i) = true.
Proof.
  unfold on_tool_finished.
  by destruct (decide (is_Some (active_processes s !! i))).
Qed.

(** X6. [on_tool_finished] always leaves the window shown; a second
    delivery for the same id, or a delivery for an id without a handle,
    changes no handle and only shows and activates the window again. *)
Theorem on_tool_finished_idempotent (s : controller) (i : jval) :
  visible (on_tool_finished s i) = true
  ∧ active_processes (on_tool_finished (on_tool_finished s i) i)
    = active_processes (on_tool_finished s i)
  ∧ trace (on_tool_finished (on_tool_finished s i) i)
    = trace s ++ [WinShow; WinActivate; WinShow; WinActivate]
  ∧ (active_processes s !! i = None ->
       active_processes (on_tool_finished s i) = active_processes s).
Proof.
  split; [apply on_tool_finished_visible|]. split; [|split].
  - rewrite !on_tool_finished_active. apply delete_id, lookup_delete_eq.
  - rewrite !on_tool_finished_trace. by rewrite <- app_assoc.
  - intros Hn. rewrite on_tool_finished_active. by apply delete_id.
Qed.

Lemma idle_visible_step (s : controller) (c : call) :
  (active_processes s = ∅ -> visible s = true) ->
  active_processes (step s c) = ∅ -> visible (step s c) = true.
Proof.
  intros Hs. destruct c as [w i|i|i|reply]; cbn [step].
  - destruct (launch_tool Started w s i) as [s'|] eqn:Hl; [|done].
    destruct (launch_tool_inv _ _ _ _ _ Hl)
      as [[_ ->]|[(t & p & e & n & _ & _ & _ & _ & _ & ->)
                 |(t & p & e & _ & _ & _ & _ & ->)]]; [done|done|].
    rewrite start_process_active. intros He. by apply insert_non_empty in He.
  - intros _. apply on_tool_finished_visible.
  - destruct (on_tool_error s i) as [s'|] eqn:He; [|done].
    destruct (on_tool_error_inv _ _ _ He) as [n ->].
    intros _. apply on_tool_finished_visible.
  - unfold closeEvent.
    destruct (negb (bool_decide (active_processes s = ∅))); [|done].
    by destruct (decide (reply = No)).
Qed.

Lemma idle_visible_run (doc : config_doc) (cs : list call) :
  active_processes (run (startup doc) cs) = ∅ ->
  visible (run (startup doc) cs) = true.
Proof.
  unfold run.
  assert (H0 : active_processes (startup doc) = ∅ -> visible (startup doc) = true)
    by done.
  revert H0. generalize (startup doc).
  induction cs as [|c cs IH]; intros s Hs; [done|].
  simpl. apply IH. by apply idle_visible_step.
Qed.

(** X7. In every state the window can reach, an empty process table
    means a visible window: the controller is never left hidden with no
    tool tracked. *)
Theorem window_visible_when_idle (doc : config_doc) (cs : list call) :
  active_processes (run (startup doc) cs) = ∅ ->
  visible (run (startup doc) cs) = true.
Proof. apply idle_visible_run. Qed.

Lemma window_visible_when_idle_witness :
  active_processes
    (run (startup Sample.studio_config)
       [LaunchTool Sample.only_venv (JStr "fake_tool"); Finished (JStr "fake_tool")]) = ∅
  ∧ visible
      (run (startup Sample.studio_config)
         [LaunchTool Sample.only_venv (JStr "fake_tool"); Finished (JStr "fake_tool")])
    = true.
Proof.
  assert (He : active_processes
                 (run (startup Sample.studio_config)
                    [LaunchTool Sample.only_venv (JStr "fake_tool");
                     Finished (JStr "fake_tool")]) = ∅) by (by vm_compute).
  split; [exact He|].
  exact (window_visible_when_idle Sample.studio_config
           [LaunchTool Sample.only_venv (JStr "fake_tool"); Finished (JStr "fake_tool")]
           He).
Defined.

End Supervision.

Section Bookkeeping.
Import Observe.

Lemma started_app tr1 tr2 : started (tr1 ++ tr2) = started tr1 ++ started tr2.
Proof. unfold started. apply omap_app. Qed.

Lemma hides_app tr1 tr2 : hides (tr1 ++ tr2) = hides tr1 + hides tr2.
Proof. unfold hides. by rewrite filter_app, length_app. Qed.

(** A call that starts nothing and adds no handle keeps the books. *)
Lemma consistent_quiet (s s' : controller) (evs : list event) :
  consistent s ->
  trace s' = trace s ++ evs ->
  started evs = [] ->
  hides evs = 0 ->
  next_proc s' = next_proc s ->
  (∀ i h, active_processes s' !! i = Some h -> active_processes s !! i = Some h) ->
  consistent s'.
Proof.
  intros (Hids & Hh & Hin & Hdis) Htr Hst Hhi Hn Hsub.
  unfold consistent. rewrite Htr, Hn, started_app, hides_app, Hst, Hhi, app_nil_r.
  split; [done|]. split; [lia|]. split.
  - intros i h Hi. apply (Hin i). by apply Hsub.
  - intros i j h h' Hij Hi Hj. apply (Hdis i j); [done|by apply Hsub..].
Qed.

Lemma consistent_start_process w s i tp ep vp :
  consistent s -> consistent (start_process Started w s i tp ep vp).
Proof.
  intros (Hids & Hh & Hin & Hdis).
  assert (Hlt : ∀ j h, active_processes s !! j = Some h -> proc_id h < next_proc s).
  { intros j h Hj. apply Hin in Hj.
    assert (Hm : proc_id h ∈ proc_id <$> started (trace s))
      by (by apply list_elem_of_fmap_2).
    rewrite Hids in Hm. apply elem_of_seq in Hm. lia. }
  unfold consistent. rewrite start_process_trace, start_process_active.
  rewrite started_app, hides_app. cbn [start_process next_proc hide set_visible emit
    set_active].
  split; [|split; [|split]].
  - by rewrite fmap_app, Hids, seq_S.
  - rewrite Hh. unfold hides.
    rewrite filter_cons_True by done. rewrite filter_cons_False by done.
    simpl. lia.
  - intros j h Hj. apply elem_of_app.
    destruct (decide (i = j)) as [<-|Hne].
    + rewrite lookup_insert_eq in Hj. injection Hj as <-. right. simpl. set_solver.
    + rewrite lookup_insert_ne in Hj by done. left. by apply (Hin j).
  - intros j k h h' Hjk Hj Hk.
    destruct (decide (i = j)) as [<-|Hij]; destruct (decide (i = k)) as [<-|Hik].
    + done.
    + rewrite lookup_insert_eq in Hj. rewrite lookup_insert_ne in Hk by done.
      injection Hj as <-. simpl. apply Hlt in Hk. lia.
    + rewrite lookup_insert_eq in Hk. rewrite lookup_insert_ne in Hj by done.
      injection Hk as <-. simpl. apply Hlt in Hj. lia.
    + rewrite lookup_insert_ne in Hj, Hk by done. by apply (Hdis j k).
Qed.

Lemma consistent_on_tool_finished s i : consistent s -> consistent (on_tool_finished s i).
Proof.
  intros Hs. apply (consistent_quiet s _ [WinShow; WinActivate]); try done.
  - apply on_tool_finished_trace.
  - apply on_tool_finished_next_proc.
  - intros j h. rewrite on_tool_finished_active. intros Hj.
    by apply lookup_delete_Some in Hj as [_ Hj].
Qed.

Lemma consistent_step s c : consistent s -> consistent (step s c).
Proof.
  intros Hs. destruct c as [w i|i|i|reply]; cbn [step].
  - destruct (launch_tool Started w s i) as [s'|] eqn:Hl; [|done].
    destruct (launch_tool_inv _ _ _ _ _ Hl)
      as [[_ ->]|[(t & p & e & n & _ & _ & _ & _ & _ & ->)
                 |(t & p & e & _ & _ & _ & _ & ->)]].
    + by apply (consistent_quiet s _ [not_registered i]).
    + by apply (consistent_quiet s _ [environment_missing w n (venv_python_of [p])]).
    + by apply consistent_start_process.
  - by apply consistent_on_tool_finished.
  - destruct (on_tool_error s i) as [s'|] eqn:He; [|done].
    destruct (on_tool_error_inv _ _ _ He) as [n ->].
    apply consistent_on_tool_finished.
    by apply (consistent_quiet s _ [tool_error n]).
  - unfold closeEvent.
    destruct (negb (bool_decide (active_processes s = ∅))); [|done].
    destruct (decide (reply = No)); by apply (consistent_quiet s _ [tools_running]).
Qed.

Lemma consistent_run doc cs : consistent (run (startup doc) cs).
Proof.
  unfold run.
  assert (H0 : consistent (startup doc)) by (by repeat split).
  revert H0. generalize (startup doc).
  induction cs as [|c cs IH]; intros s Hs; [done|].
  simpl. apply IH. by apply consistent_step.
Qed.

(** X8. In every state the window can reach, each handle of the table is
    a process that was started (its start is in the trace), and two tool
    ids never hold the same process object. *)
Theorem handles_are_started_processes (doc : config_doc) (cs : list call) :
  let s := run (startup doc) cs in
  (∀ i h, active_processes s !! i = Some h -> ProcStart h ∈ trace s)
  ∧ (∀ i j h h', i ≠ j -> active_processes s !! i = Some h ->
       active_processes s !! j = Some h' -> h ≠ h').
Proof.
  intros s. destruct (consistent_run doc cs) as (_ & _ & Hin & Hdis). fold s in Hin, Hdis.
  split.
  - intros i h Hi. apply Hin in Hi. unfold started in Hi.
    apply list_elem_of_omap in Hi as (e & He & Hp).
    destruct e; try done. by injection Hp as ->.
  - intros i j h h' Hij Hi Hj Heq. apply (Hdis i j h h' Hij Hi Hj). by rewrite Heq.
Qed.

(** X9. In every state the window can reach, the window has been hidden
    exactly once for each process started, and the processes started
    carry the numbers 0, 1, 2, ... in the order of their start. *)
Theorem one_hide_per_start (doc : config_doc) (cs : list call) :
  let s := run (startup doc) cs in
  hides (trace s) = length (started (trace s))
  ∧ proc_id <$> started (trace s) = seq 0 (next_proc s).
Proof.
  intros s. destruct (consistent_run doc cs) as (Hids & Hh & _). fold s in Hids, Hh.
  split; [|done].
  rewrite Hh. by rewrite <- (length_fmap proc_id), Hids, length_seq.
Qed.

(** X10. A second launch of an id followed by one [finished] signal
    leaves no handle for the id although two processes were started for
    it; if no other tool has a handle, the window then closes without the
    confirmation question. *)
Theorem relaunch_then_finished_forgets_process (doc : config_doc) (cs : list call)
    (w : os) (i : jval) (h : qprocess) (t : jobj) (p e : string) :
  let s := run (startup doc) cs in
  active_processes s !! i = Some h ->
  get_tool_by_id (config s) i = Ok (Some t) ->
  t !! "path" = Some (JStr p) ->
  t !! "entry_point" = Some (JStr e) ->
  path_exists w (venv_python_of [p]) = true ->
  let s' := run s [LaunchTool w i; Finished i] in
  active_processes s' !! i = None
  ∧ (∃ q, q ≠ h ∧ started (trace s') = started (trace s) ++ [q]
          ∧ h ∈ started (trace s))
  ∧ ((∀ j, j ≠ i -> active_processes s !! j = None) ->
       ∀ reply, closeEvent s' reply = (s', true)).
Proof.
  intros s Hh Hfind Hp He Hex s'.
  assert (Hs' : s' = on_tool_finished
                       (start_process Started w s i [p] [p; e] (venv_python_of [p])) i).
  { unfold s'. cbn [run fold_left step].
    by rewrite (launch_tool_started w Started s i t p e). }
  assert (Hact : active_processes s' = delete i (active_processes s)).
  { rewrite Hs', on_tool_finished_active, start_process_active.
    apply delete_insert_eq. }
  split; [rewrite Hact; apply lookup_delete_eq|]. split.
  - eexists. split; [|split].
    2:{ rewrite Hs', on_tool_finished_trace, start_process_trace, !started_app.
        simpl. by rewrite app_nil_r. }
    + intros Heq. pose proof (fresh_run doc cs i h Hh) as Hlt. fold s in Hlt.
      rewrite <- Heq in Hlt. simpl in Hlt. lia.
    + destruct (consistent_run doc cs) as (_ & _ & Hin & _). by apply (Hin i).
  - intros Hothers reply. unfold closeEvent.
    rewrite bool_decide_true; [done|].
    rewrite Hact. apply map_eq. intros j. rewrite lookup_empty.
    destruct (decide (j = i)) as [->|Hne]; [apply lookup_delete_eq|].
    rewrite lookup_delete_ne by done. by apply Hothers.
Qed.

Lemma relaunch_then_finished_forgets_process_witness :
  let s' := run Sample.launched_once
              [LaunchTool Sample.only_venv (JStr "fake_tool"); Finished (JStr "fake_tool")] in
  active_processes s' !! JStr "fake_tool" = None
  ∧ (∃ q, q ≠ Sample.first_process
          ∧ started (trace s') = started (trace Sample.launched_once) ++ [q]
          ∧ Sample.first_process ∈ started (trace Sample.launched_once))
  ∧ ((∀ j, j ≠ JStr "fake_tool" -> active_processes Sample.launched_once !! j = None) ->
       ∀ reply, closeEvent s' reply = (s', true)).
Proof.
  apply (relaunch_then_finished_forgets_process Sample.studio_config
           [LaunchTool Sample.only_venv (JStr "fake_tool")] Sample.only_venv
           (JStr "fake_tool") Sample.first_process Sample.fake_tool
           "tools/FakeTool" "main_gui.py"); reflexivity.
Defined.

(** [closeEvent] asks the question exactly when the table is not empty,
    refuses the close exactly when the table is not empty and the answer
    is [No], and never changes the table or the visibility. *)
Lemma close_event_spec (s : controller) (reply : standard_button) :
  ((closeEvent s reply).2 = false ↔ active_processes s ≠ ∅ ∧ reply = No)
  ∧ (trace (closeEvent s reply).1 = trace s ↔ active_processes s = ∅)
  ∧ active_processes (closeEvent s reply).1 = active_processes s
  ∧ visible (closeEvent s reply).1 = visible s.
Proof.
  unfold closeEvent. case_bool_decide as He; simpl.
  - repeat split; try done. by intros [? _].
  - assert (Hgrow : trace s ++ [tools_running] ≠ trace s).
    { intros Heq. apply (f_equal length) in Heq. rewrite length_app in Heq.
      simpl in Heq. lia. }
    destruct reply; simpl.
    + repeat split; try done. by intros [_ ?].
    + by repeat split.
Qed.

(** X11. In every state the window can reach, a close request that
    arrives while the window is hidden asks the confirmation question, and
    the window closes only on [Yes]: a hidden controller never closes
    silently. *)
Theorem hidden_window_asks_before_close (doc : config_doc) (cs : list call)
    (reply : standard_button) :
  let s := run (startup doc) cs in
  visible s = false ->
  trace (closeEvent s reply).1
  = trace s ++ [MsgQuestion "Tools Running" "Tools are still running. Close anyway?"]
  ∧ ((closeEvent s reply).2 = false ↔ reply = No).
Proof.
  intros s Hv.
  assert (Hne : active_processes s ≠ ∅).
  { intros He. apply idle_visible_run in He. fold s in He. congruence. }
  destruct (close_event_spec s reply) as (Hacc & _).
  split.
  - unfold closeEvent. rewrite bool_decide_false by done. simpl.
    by destruct (decide (reply = No)).
  - rewrite Hacc. split; [by intros [_ ?]|done].
Qed.

Lemma hidden_window_asks_before_close_witness :
  visible (run (startup Sample.studio_config)
             [LaunchTool Sample.only_venv (JStr "fake_tool")]) = false
  ∧ trace (closeEvent (run (startup Sample.studio_config)
                         [LaunchTool Sample.only_venv (JStr "fake_tool")]) Yes).1
    = trace (run (startup Sample.studio_config)
               [LaunchTool Sample.only_venv (JStr "fake_tool")])
      ++ [MsgQuestion "Tools Running" "Tools are still running. Close anyway?"].
Proof.
  split; [reflexivity|].
  apply (hidden_window_asks_before_close Sample.studio_config
           [LaunchTool Sample.only_venv (JStr "fake_tool")] Yes).
  reflexivity.
Defined.

End Bookkeeping.

(** ** Properties of the tool list *)

Section ToolListProperties.
Import ToolList Observe.

Lemma add_items_ok (ts : list jobj) (acc : list list_item) :
  Forall showable ts ->
  ∃ items, add_items ts acc = (acc ++ items, None)
           ∧ Forall2 shows items (filter (fun t => enabled t = true) ts).
Proof.
  intros Hts. revert acc. induction Hts as [|t ts Ht _ IH]; intros acc.
  - exists []. by rewrite app_nil_r.
  - simpl. destruct (enabled t) eqn:Hen.
    + destruct (Ht Hen) as (n & id & Hn & Hid).
      unfold make_item, getitem. rewrite Hn. simpl. rewrite Hid. simpl.
      destruct (IH (acc ++ [{| text := n; data := id |}])) as (items & -> & Hf).
      exists ({| text := n; data := id |} :: items).
      split; [by rewrite <- app_assoc|].
      rewrite filter_cons_True by done. by constructor.
    + destruct (IH acc) as (items & -> & Hf). exists items. split; [done|].
      rewrite filter_cons_False; [done|]. by rewrite Hen.
Qed.

Lemma refresh_ok (cfg : config_doc) (ui : widgets) :
  let ts := default [] (tools cfg) in
  Forall showable ts ->
  let r := refresh_tool_list cfg ui in
  r.2 = None
  ∧ Forall2 shows (lst_tools r.1) (filter (fun t => enabled t = true) ts)
  ∧ txt_tool_info r.1 = (if decide (ts = []) then no_tools_html else txt_tool_info ui).
Proof.
  intros ts Hts r. unfold r, refresh_tool_list. fold ts.
  destruct ts as [|t ts'] eqn:Hd; [by repeat split|].
  destruct (add_items_ok (t :: ts') [] Hts) as (items & Hr & Hf).
  rewrite Hr. simpl. by split.
Qed.

(** X12. When every enabled entry has a string [display_name] and an
    [id], [refresh_tool_list] lists exactly the enabled entries, in
    configuration order, each under its display name with its id as item
    data; entries that are not enabled are left out whatever they contain.
    With no entry at all the list is empty and the info panel reads
    "No tools registered". *)
Theorem refresh_lists_enabled_tools (cfg : config_doc) (ui : widgets) :
  let ts := default [] (tools cfg) in
  Forall showable ts ->
  let r := refresh_tool_list cfg ui in
  r.2 = None
  ∧ Forall2 shows (lst_tools r.1) (filter (fun t => enabled t = true) ts)
  ∧ txt_tool_info r.1 = (if decide (ts = []) then no_tools_html else txt_tool_info ui).
Proof. apply refresh_ok. Qed.

Lemma refresh_lists_enabled_tools_witness :
  (refresh_tool_list Sample2.shadow_config Sample2.empty_ui).2 = None
  ∧ Forall2 shows
      (lst_tools (refresh_tool_list Sample2.shadow_config Sample2.empty_ui).1)
      (filter (fun t => enabled t = true)
         [Sample2.retired_tool; Sample.fake_tool; Sample2.vision_tool])
  ∧ txt_tool_info (refresh_tool_list Sample2.shadow_config Sample2.empty_ui).1
    = (if decide ([Sample2.retired_tool; Sample.fake_tool; Sample2.vision_tool] = [])
       then no_tools_html else txt_tool_info Sample2.empty_ui).
Proof.
  apply (refresh_lists_enabled_tools Sample2.shadow_config Sample2.empty_ui).
  repeat constructor; intros Hen; try (by vm_compute in Hen); by eexists _, _.
Defined.

Lemma refresh_nonempty (cfg : config_doc) (ui : widgets) (ts : list jobj) :
  tools cfg = Some ts -> ts ≠ [] ->
  refresh_tool_list cfg ui
  = ({| lst_tools := (add_items ts []).1; txt_tool_info := txt_tool_info ui |},
     (add_items ts []).2).
Proof.
  intros Hts Hne. unfold refresh_tool_list. rewrite Hts. simpl. by destruct ts.
Qed.

Lemma add_items_raise (l1 : list jobj) (u : jobj) (l2 : list jobj)
    (acc : list list_item) (e : exn) :
  Forall showable l1 -> enabled u = true -> make_item u = Raise e ->
  ∃ items, add_items (l1 ++ u :: l2) acc = (acc ++ items, Some e)
           ∧ Forall2 shows items (filter (fun t => enabled t = true) l1).
Proof.
  intros Hl1 Hen Hu. revert acc. induction Hl1 as [|t l1 Ht _ IH]; intros acc.
  - simpl. rewrite Hen, Hu. exists []. by rewrite app_nil_r.
  - simpl. destruct (enabled t) eqn:Ht_en.
    + destruct (Ht Ht_en) as (n & id & Hn & Hid).
      unfold make_item at 1. unfold getitem. rewrite Hn. simpl. rewrite Hid. simpl.
      destruct (IH (acc ++ [{| text := n; data := id |}])) as (items & -> & Hf).
      exists ({| text := n; data := id |} :: items).
      split; [by rewrite <- app_assoc|].
      rewrite filter_cons_True by done. by constructor.
    + destruct (IH acc) as (items & -> & Hf). exists items. split; [done|].
      rewrite filter_cons_False; [done|]. by rewrite Ht_en.
Qed.

(** X13. [refresh_tool_list] stops at the first enabled entry it cannot
    show - no [display_name] ([KeyError]), a [display_name] that is not a
    string ([TypeError]) or no [id] ([KeyError]) - with the exception
    leaving the method and the list holding the enabled entries before
    it only. *)
Theorem refresh_stops_at_bad_entry (cfg : config_doc) (ui : widgets)
    (l1 : list jobj) (u : jobj) (l2 : list jobj) :
  tools cfg = Some (l1 ++ u :: l2) ->
  Forall showable l1 ->
  enabled u = true ->
  let r := refresh_tool_list cfg ui in
  let kept := Forall2 shows (lst_tools r.1) (filter (fun t => enabled t = true) l1) in
  (u !! "display_name" = None -> r.2 = Some (KeyError "display_name") ∧ kept)
  ∧ (∀ n, u !! "display_name" = Some (JInt n) -> r.2 = Some TypeError ∧ kept)
  ∧ (∀ n, u !! "display_name" = Some (JStr n) -> u !! "id" = None ->
       r.2 = Some (KeyError "id") ∧ kept).
Proof.
  intros Hts Hl1 Hen r kept.
  assert (Hr : ∀ e, make_item u = Raise e -> r.2 = Some e ∧ kept).
  { intros e Hu. unfold kept, r.
    rewrite (refresh_nonempty cfg ui _ Hts) by (by destruct l1).
    destruct (add_items_raise l1 u l2 [] e Hl1 Hen Hu) as (items & Hr & Hf).
    by rewrite Hr. }
  split; [|split].
  - intros Hn. apply Hr. unfold make_item, getitem. by rewrite Hn.
  - intros n Hn. apply Hr. unfold make_item, getitem. by rewrite Hn.
  - intros n Hn Hid. apply Hr. unfold make_item, getitem. rewrite Hn. simpl.
    by rewrite Hid.
Qed.

Lemma refresh_stops_at_bad_entry_witness :
  (refresh_tool_list Sample2.broken_config Sample2.empty_ui).2 = Some (KeyError "id")
  ∧ Forall2 shows
      (lst_tools (refresh_tool_list Sample2.broken_config Sample2.empty_ui).1)
      (filter (fun t => enabled t = true) [Sample.fake_tool]).
Proof.
  destruct (refresh_stops_at_bad_entry Sample2.broken_config Sample2.empty_ui
              [Sample.fake_tool] Sample2.anonymous_tool
              [Sample2.vision_tool; Sample2.numeric_path_tool]) as (_ & _ & H).
  - reflexivity.
  - repeat constructor. intros _. by eexists _, _.
  - reflexivity.
  - apply (H "Anonymous"); reflexivity.
Defined.

End ToolListProperties.

Section LaunchFromList.
Import ToolList Observe.

Lemma make_item_ok (t : jobj) (it : list_item) :
  make_item t = Ok it -> shows it t.
Proof.
  unfold make_item, getitem.
  destruct (t !! "display_name") as [[n|n]|] eqn:Hn; simpl; [|done|done].
  destruct (t !! "id") as [id|] eqn:Hid; simpl; [|done].
  by intros [= <-].
Qed.

(** Every item the loop adds was made from an entry of the list. *)
Lemma add_items_from (ts : list jobj) (acc : list list_item) (it : list_item) :
  it ∈ (add_items ts acc).1 -> it ∈ acc ∨ ∃ t, t ∈ ts ∧ enabled t = true ∧ shows it t.
Proof.
  revert acc. induction ts as [|t ts IH]; intros acc; simpl; [by left|].
  destruct (enabled t) eqn:Hen.
  - destruct (make_item t) as [item|e] eqn:Hitem; simpl; [|by left].
    intros Hin. destruct (IH _ Hin) as [Hacc|(t' & Ht' & Hen' & Hs)].
    + apply elem_of_app in Hacc as [Hacc|Hnew]; [by left|].
      apply list_elem_of_singleton in Hnew as ->. right. exists t.
      split; [left|]. split; [done|]. by apply make_item_ok.
    + right. exists t'. split; [by right|done].
  - intros Hin. destruct (IH _ Hin) as [Hacc|(t' & Ht' & Hen' & Hs)]; [by left|].
    right. exists t'. split; [by right|done].
Qed.

Lemma refresh_items_from (cfg : config_doc) (ui : widgets) (it : list_item) :
  it ∈ lst_tools (refresh_tool_list cfg ui).1 ->
  ∃ t, t ∈ default [] (tools cfg) ∧ enabled t = true ∧ shows it t.
Proof.
  unfold refresh_tool_list.
  destruct (default [] (tools cfg)) as [|t ts] eqn:Hd; simpl.
  - intros Hin. by apply elem_of_nil in Hin.
  - intros Hin. apply (add_items_from (t :: ts) []) in Hin as [Hin|Hin]; [|done].
    by apply elem_of_nil in Hin.
Qed.

(** X14. When every entry has an id, every item of the refreshed list
    resolves: the lookup of its item data finds an entry with that id, so
    launching a listed tool never ends in "Tool Not Found". *)
Theorem listed_tools_are_registered (cfg : config_doc) (ui : widgets) (it : list_item) :
  Forall (fun t : jobj => is_Some (t !! "id")) (default [] (tools cfg)) ->
  it ∈ lst_tools (refresh_tool_list cfg ui).1 ->
  (∃ t, get_tool_by_id cfg (data it) = Ok (Some t) ∧ t !! "id" = Some (data it))
  ∧ (∀ r w s s', config s = cfg -> on_launch_clicked r w s [it] = Ok s' ->
       trace s' ≠ trace s ++ [not_registered (data it)]).
Proof.
  intros Hids Hin.
  destruct (refresh_items_from cfg ui it Hin) as (t & Ht & _ & _ & Hid).
  assert (Hfound : ∃ t', get_tool_by_id cfg (data it) = Ok (Some t')
                         ∧ t' !! "id" = Some (data it)).
  { unfold get_tool_by_id.
    destruct (find_tool_cases (default [] (tools cfg)) (data it))
      as [[Hall _]|[(l1 & t' & l2 & _ & _ & Ht' & Hr)
                   |(l1 & u & l2 & Heq & _ & Hu & _)]].
    - rewrite Forall_forall in Hall. destruct (Hall t Ht) as [_ Hne]. by destruct Hne.
    - by exists t'.
    - rewrite Forall_forall in Hids.
      assert (Hu' : is_Some (u !! "id")) by (apply Hids; rewrite Heq; set_solver).
      rewrite Hu in Hu'. by destruct Hu'. }
  split; [exact Hfound|].
  intros r w s s' Hcfg Hl Htr. simpl in Hl.
  destruct Hfound as (t' & Hfind & _). rewrite <- Hcfg in Hfind.
  destruct (launch_tool_inv _ _ _ _ _ Hl)
    as [[Hnone _]|[(t2 & p & e & n & _ & _ & _ & _ & _ & ->)
                  |(t2 & p & e & _ & _ & _ & _ & ->)]].
  - congruence.
  - simpl in Htr. apply app_inv_head in Htr. discriminate.
  - destruct (start_process_trace_any r w s (data it) [p] [p; e] (venv_python_of [p]))
      as [rest Hrest].
    rewrite Hrest in Htr. apply app_inv_head in Htr. discriminate.
Qed.

Lemma listed_tools_are_registered_witness :
  (∃ t, get_tool_by_id Sample2.shadow_config (JStr "vision") = Ok (Some t)
        ∧ t !! "id" = Some (JStr "vision"))
  ∧ (∀ r w s s', config s = Sample2.shadow_config ->
       on_launch_clicked r w s [{| text := "Vision Tester"; data := JStr "vision" |}]
       = Ok s' ->
       trace s' ≠ trace s ++ [not_registered (JStr "vision")]).
Proof.
  apply (listed_tools_are_registered Sample2.shadow_config Sample2.empty_ui
           {| text := "Vision Tester"; data := JStr "vision" |}).
  - repeat constructor; by eexists.
  - vm_compute. set_solver.
Defined.

(** X15. An entry that is not enabled is still launched when a later,
    enabled entry reuses its id: the list shows the enabled entry, and
    launching that item starts the first entry with the id, in the
    directory of the entry that is not enabled. *)
Theorem duplicate_id_launches_first_entry (w : os) (s : controller) (ui : widgets)
    (l1 : list jobj) (t0 : jobj) (l2 : list jobj) (t1 : jobj)
    (i : jval) (n p0 e0 : string) :
  tools (config s) = Some (l1 ++ t0 :: l2) ->
  Forall (other i) l1 ->
  t0 !! "id" = Some i ->
  enabled t0 = false ->
  Forall showable (l1 ++ t0 :: l2) ->
  t1 ∈ l2 ->
  enabled t1 = true ->
  t1 !! "id" = Some i ->
  t1 !! "display_name" = Some (JStr n) ->
  t0 !! "path" = Some (JStr p0) ->
  t0 !! "entry_point" = Some (JStr e0) ->
  path_exists w (venv_python_of [p0]) = true ->
  {| text := n; data := i |} ∈ lst_tools (refresh_tool_list (config s) ui).1
  ∧ ∃ s' q, on_launch_clicked Started w s [{| text := n; data := i |}] = Ok s'
      ∧ active_processes s' !! i = Some q
      ∧ workingDirectory q = path_str w [p0]
      ∧ program q = path_str w (venv_python_of [p0]).
Proof.
  intros Hts Hl1 Hid0 Hdis Hall Ht1 Hen1 Hid1 Hn1 Hp0 He0 Hex. split.
  - assert (Hd : default [] (tools (config s)) = l1 ++ t0 :: l2) by (by rewrite Hts).
    destruct (refresh_ok (config s) ui) as (_ & Hf & _).
    { by rewrite Hd. }
    rewrite Hd in Hf.
    assert (Hin : t1 ∈ filter (fun t => enabled t = true) (l1 ++ t0 :: l2)).
    { apply list_elem_of_filter. split; [done|].
      apply elem_of_app. right. by right. }
    apply list_elem_of_lookup in Hin as [k Hk].
    destruct (Forall2_lookup_r _ _ _ _ _ Hf Hk) as (it & Hit & Hn & Hid).
    assert (it = {| text := n; data := i |}) as <-.
    { destruct it as [tx dt]. simpl in *. congruence. }
    apply list_elem_of_lookup. by exists k.
  - assert (Hfind : get_tool_by_id (config s) i = Ok (Some t0)).
    { unfold get_tool_by_id. rewrite Hts. simpl. by apply find_tool_first. }
    eexists _, _. simpl.
    split; [by apply (launch_tool_started w Started s i t0 p0 e0)|].
    rewrite start_process_active. split; [apply lookup_insert_eq|]. by split.
Qed.

Lemma duplicate_id_launches_first_entry_witness :
  Sample2.retired_tool !! "enabled" = Some (JInt 0)
  ∧ {| text := "Vision Tester"; data := JStr "vision" |}
    ∈ lst_tools (refresh_tool_list (config (startup Sample2.shadow_config))
                   Sample2.empty_ui).1
  ∧ ∃ s' q,
      on_launch_clicked Started Sample2.everything_exists (startup Sample2.shadow_config)
        [{| text := "Vision Tester"; data := JStr "vision" |}] = Ok s'
      ∧ active_processes s' !! JStr "vision" = Some q
      ∧ workingDirectory q = path_str Sample2.everything_exists ["tools/Vision_old"]
      ∧ program q
        = path_str Sample2.everything_exists (venv_python_of ["tools/Vision_old"]).
Proof.
  split; [reflexivity|].
  apply (duplicate_id_launches_first_entry Sample2.everything_exists
           (startup Sample2.shadow_config) Sample2.empty_ui
           [] Sample2.retired_tool [Sample.fake_tool; Sample2.vision_tool]
           Sample2.vision_tool (JStr "vision") "Vision Tester"
           "tools/Vision_old" "main_gui.py");
    try reflexivity.
  - constructor.
  - repeat constructor; intros Hen; try (by vm_compute in Hen); by eexists _, _.
  - set_solver.
Defined.

End LaunchFromList.

(** ** Properties of the engine of Vision Tester *)

Section EngineRun.
Import StatusFile VisionEngine.

Lemma update_status_lookup st p m t :
  update_status st p m t !! "status" = Some (JStr st)
  ∧ update_status st p m t !! "progress" = Some (JInt p)
  ∧ update_status st p m t !! "message" = Some (JStr m)
  ∧ update_status st p m t !! "timestamp" = Some (JStr t).
Proof.
  unfold update_status. split; [|split; [|split]].
  - apply lookup_insert_eq.
  - rewrite lookup_insert_ne by done. apply lookup_insert_eq.
  - rewrite !lookup_insert_ne by done. apply lookup_insert_eq.
  - rewrite !lookup_insert_ne by done. apply lookup_insert_eq.
Qed.

Lemma written_fields sp o :
  written sp o ->
  status_of o = Some sp.1 ∧ progress_of o = sp.2
  ∧ get o "progress" (JInt 0) = JInt sp.2
  ∧ truthy (get o "message" (JStr "")) = true.
Proof.
  intros (m & t & -> & Hm).
  destruct (update_status_lookup sp.1 sp.2 m t) as (Hst & Hp & Hmsg & _).
  unfold status_of, progress_of, get. rewrite Hst, Hp, Hmsg. simpl.
  split; [done|]. split; [done|]. split; [done|]. by rewrite bool_decide_false.
Qed.

Lemma written_intro st p m t : m ≠ "" -> written (st, p) (update_status st p m t).
Proof. intros Hm. by exists m, t. Qed.

(** The status and progress of the records [run_detection] writes. *)
Lemma run_detection_shape m name d t1 t2 :
  ∃ shape,
    Forall2 written shape (VisionTester.run_detection m name d t1 t2).1
    ∧ ((VisionTester.run_detection m name d t1 t2).2 = true
       ∧ (shape = [("running", 50%Z); ("complete", 100%Z)]
          ∨ shape = [("running", 30%Z); ("complete", 100%Z)])
       ∨ (VisionTester.run_detection m name d t1 t2).2 = false
         ∧ (shape = [("running", 50%Z); ("error", 0%Z)]
            ∨ shape = [("running", 30%Z); ("error", 0%Z)]
            ∨ shape = [("error", 0%Z)])).
Proof.
  destruct m as [| |m'], d as [e|]; simpl.
  - exists [("running", 50%Z); ("error", 0%Z)].
    split; [repeat constructor; by apply written_intro|]. right. split; [done|by left].
  - exists [("running", 50%Z); ("complete", 100%Z)].
    split; [repeat constructor; by apply written_intro|]. left. split; [done|by left].
  - exists [("running", 30%Z); ("error", 0%Z)].
    split; [repeat constructor; by apply written_intro|].
    right. split; [done|right; by left].
  - exists [("running", 30%Z); ("complete", 100%Z)].
    split; [repeat constructor; by apply written_intro|]. left. split; [done|by right].
  - exists [("error", 0%Z)].
    split; [repeat constructor; by apply written_intro|].
    right. split; [done|right; by right].
  - exists [("error", 0%Z)].
    split; [repeat constructor; by apply written_intro|].
    right. split; [done|right; by right].
Qed.

(** The status and progress of the records a run writes: three records
    of the start and the model, then those of the detection, on success;
    an [error] record with progress 0 where the run breaks off, which is
    right after the first record when the lookups of [load_model] raise. *)
Lemma run_shape (w : world) (a : arguments) :
  ∃ shape,
    Forall2 written shape (run w a).1
    ∧ ((run w a).2 = true
       ∧ (shape = [("running", 0%Z); ("running", 10%Z); ("running", 20%Z);
                   ("running", 50%Z); ("complete", 100%Z)]
          ∨ shape = [("running", 0%Z); ("running", 10%Z); ("running", 20%Z);
                     ("running", 30%Z); ("complete", 100%Z)])
       ∨ (run w a).2 = false
         ∧ ((lookup_raises (config w) = true
             ∧ shape = [("running", 0%Z); ("error", 0%Z)])
            ∨ (lookup_raises (config w) = false
               ∧ (shape = [("running", 0%Z); ("running", 10%Z); ("error", 0%Z)]
                  ∨ shape = [("running", 0%Z); ("running", 10%Z); ("running", 20%Z);
                             ("error", 0%Z)]
                  ∨ shape = [("running", 0%Z); ("running", 10%Z); ("running", 20%Z);
                             ("running", 50%Z); ("error", 0%Z)]
                  ∨ shape = [("running", 0%Z); ("running", 10%Z); ("running", 20%Z);
                             ("running", 30%Z); ("error", 0%Z)])))).
Proof.
  unfold run, load_model, lookup_raises.
  destruct (model_name_of (config w)) as [e|name]; simpl.
  { eexists. split; [repeat constructor; by apply written_intro|].
    right. split; [done|]. left. by split. }
  set (created := match name with
                  | JStr nm => create_detector (ULTRALYTICS_AVAILABLE w) (construct w) nm
                  | JInt _ => Some (NoAttribute "int" "endswith")
                  end).
  destruct created as [e|]; simpl.
  { eexists. split; [repeat constructor; by apply written_intro|].
    right. split; [done|]. right. split; [done|by left]. }
  destruct (prepare w a) as [e|]; simpl.
  { eexists. split; [repeat constructor; by apply written_intro|].
    right. split; [done|]. right. split; [done|right; by left]. }
  destruct (run_detection_shape (mode a) (input_name a) (detect w) (now w 3) (now w 4))
    as (sh & Hf & Hcase).
  exists ([("running", 0%Z); ("running", 10%Z); ("running", 20%Z)] ++ sh).
  split.
  { repeat (constructor; [by apply written_intro|]). exact Hf. }
  destruct Hcase as [[-> [->| ->]]|[-> [->|[->| ->]]]]; simpl.
  - left. split; [done|by left].
  - left. split; [done|by right].
  - right. split; [done|]. right. split; [done|]. right; right; by left.
  - right. split; [done|]. right. split; [done|]. right; right; by right.
  - right. split; [done|]. right. split; [done|]. right; by left.
Qed.

End EngineRun.

Section EngineAndReader.
Import StatusFile VisionEngine.

(** A last record after some others. *)
Lemma written_snoc (shinit : list (string * Z)) (spfinal : string * Z)
    (recs : list jobj) :
  Forall2 written (shinit ++ [spfinal]) recs ->
  ∃ init final, recs = init ++ [final]
                ∧ Forall2 written shinit init ∧ written spfinal final.
Proof.
  intros Hf.
  apply Forall2_app_inv_l in Hf as (init & fin & Hinit & Hfin & Heq).
  apply Forall2_cons_inv_l in Hfin as (final & rest & Hw & Hrest & ->).
  apply Forall2_nil_inv_l in Hrest as ->. by exists init, final.
Qed.

(** A run writes some [running] records with progress between 0 and 100
    and then one last record, [complete] with 100 or [error] with 0
    according to the value returned. *)
Lemma run_split (w : world) (a : arguments) :
  ∃ shinit init final,
    (run w a).1 = init ++ [final]
    ∧ Forall2 written shinit init
    ∧ Forall (fun sp : string * Z => sp.1 = "running" ∧ (0 ≤ sp.2 ≤ 100)%Z) shinit
    ∧ written (if (run w a).2 then ("complete", 100%Z) else ("error", 0%Z)) final.
Proof.
  destruct (run_shape w a) as (shape & Hf & Hcase).
  assert (Hsplit : ∀ shinit spfinal,
            shape = shinit ++ [spfinal] ->
            Forall (fun sp : string * Z => sp.1 = "running" ∧ (0 ≤ sp.2 ≤ 100)%Z) shinit ->
            ∃ shinit init final,
              (run w a).1 = init ++ [final]
              ∧ Forall2 written shinit init
              ∧ Forall (fun sp : string * Z => sp.1 = "running" ∧ (0 ≤ sp.2 ≤ 100)%Z)
                  shinit
              ∧ written spfinal final).
  { intros shinit spfinal -> Hrun.
    destruct (written_snoc _ _ _ Hf) as (init & final & Heq & Hi & Hfin).
    by exists shinit, init, final. }
  destruct Hcase as [[Hok [->| ->]]|[Hok [[_ ->]|[_ [->|[->|[->| ->]]]]]]]; rewrite Hok.
  - apply (Hsplit [("running", 0%Z); ("running", 10%Z); ("running", 20%Z);
                   ("running", 50%Z)] ("complete", 100%Z) eq_refl).
    repeat constructor; simpl; lia.
  - apply (Hsplit [("running", 0%Z); ("running", 10%Z); ("running", 20%Z);
                   ("running", 30%Z)] ("complete", 100%Z) eq_refl).
    repeat constructor; simpl; lia.
  - apply (Hsplit [("running", 0%Z)] ("error", 0%Z) eq_refl).
    repeat constructor; simpl; lia.
  - apply (Hsplit [("running", 0%Z); ("running", 10%Z)] ("error", 0%Z) eq_refl).
    repeat constructor; simpl; lia.
  - apply (Hsplit [("running", 0%Z); ("running", 10%Z); ("running", 20%Z)]
             ("error", 0%Z) eq_refl).
    repeat constructor; simpl; lia.
  - apply (Hsplit [("running", 0%Z); ("running", 10%Z); ("running", 20%Z);
                   ("running", 50%Z)] ("error", 0%Z) eq_refl).
    repeat constructor; simpl; lia.
  - apply (Hsplit [("running", 0%Z); ("running", 10%Z); ("running", 20%Z);
                   ("running", 30%Z)] ("error", 0%Z) eq_refl).
    repeat constructor; simpl; lia.
Qed.

(** X16. Whatever the configuration, the model, the files and the
    detector do, the last status record of a run tells its result: [run]
    returns [True] exactly when the last record is [complete] with
    progress 100, and [False] exactly when it is [error] with progress 0;
    every record before the last one is [running]. *)
Theorem run_result_in_last_record (w : world) (a : arguments) :
  ∃ o, last (run w a).1 = Some o
    ∧ status_of o = Some (if (run w a).2 then "complete" else "error")
    ∧ progress_of o = (if (run w a).2 then 100 else 0)%Z
    ∧ Forall (fun o' => status_of o' = Some "running") (removelast (run w a).1).
Proof.
  destruct (run_split w a) as (shinit & init & final & Heq & Hinit & Hrun & Hfin).
  exists final. rewrite Heq, last_snoc, removelast_last.
  destruct (written_fields _ _ Hfin) as (Hst & Hp & _).
  split; [done|]. split; [by destruct (run w a).2|]. split; [by destruct (run w a).2|].
  clear Heq Hfin Hst Hp. induction Hinit as [|sp o shinit init Hw _ IH]; [done|].
  apply Forall_cons in Hrun as [[Hsp _] Hrun]. constructor; [|by apply IH].
  destruct (written_fields _ _ Hw) as (Hst & _). by rewrite Hst, Hsp.
Qed.

Lemma written_progress_list shape recs :
  Forall2 written shape recs -> progress_of <$> recs = snd <$> shape.
Proof.
  induction 1 as [|sp o shape recs Hw _ IH]; [done|].
  rewrite !fmap_cons. destruct (written_fields _ _ Hw) as (_ & Hp & _).
  by rewrite Hp, IH.
Qed.

(** X17. The progress values a run writes never decrease exactly when
    the run succeeds or [load_model] fails in its lookups of the
    configuration, before its first record: the progress values are then
    0 and 0.  Every other failing run falls back from a positive progress
    to 0 in its last record. *)
Theorem progress_sorted_unless_late_failure (w : world) (a : arguments) :
  (Sorted Z.le (progress_of <$> (run w a).1)
   ↔ (run w a).2 = true ∨ lookup_raises (config w) = true)
  ∧ (lookup_raises (config w) = true ->
       (run w a).2 = false ∧ progress_of <$> (run w a).1 = [0; 0]%Z).
Proof.
  destruct (run_shape w a) as (shape & Hf & Hcase).
  rewrite (written_progress_list _ _ Hf).
  assert (Hexcl : lookup_raises (config w) = true ->
            lookup_raises (config w) = false -> False) by congruence.
  assert (Hnot : lookup_raises (config w) = true -> (run w a).2 ≠ true).
  { unfold run, load_model, lookup_raises.
    by destruct (model_name_of (config w)). }
  destruct Hcase as [[Hok Hsh]|[Hok [[Hl ->]|[Hr Hsh]]]]; rewrite Hok.
  - split; [|intros Hl; by destruct (Hnot Hl)].
    split; [by left|]. intros _.
    destruct Hsh as [->| ->]; simpl; repeat constructor; lia.
  - split; [|done]. split; [by right|]. intros _. simpl. repeat constructor; lia.
  - split; [|intros Hl; by destruct (Hexcl Hl Hr)].
    split; [|intros [?|Hl]; [done|by destruct (Hexcl Hl Hr)]].
    intros Hs. exfalso.
    destruct Hsh as [->|[->|[->| ->]]]; simpl in Hs;
      repeat (apply Sorted_inv in Hs as [Hs ?]);
      repeat match goal with
             | H : HdRel _ _ (_ :: _) |- _ => apply HdRel_inv in H
             end; lia.
Qed.

Lemma progress_sorted_unless_late_failure_witness :
  (VisionEngine.run Sample2.flat_config_world Sample2.single_image).2 = false
  ∧ progress_of <$> (VisionEngine.run Sample2.flat_config_world Sample2.single_image).1
    = [0; 0]%Z.
Proof.
  destruct (progress_sorted_unless_late_failure Sample2.flat_config_world
              Sample2.single_image) as [_ H].
  apply H. reflexivity.
Defined.

Variable convert : jval -> option Z.
Hypothesis convert_percent : ∀ n, (0 ≤ n ≤ 100)%Z -> convert (JInt n) = Some n.

(** One timeout on a record written by [update_status], for a bar whose
    range includes 0 to 100. *)
Lemma tick_written (g : VisionTester.gui) (sp : string * Z) (o : jobj) :
  written sp o -> (0 ≤ sp.2 ≤ 100)%Z ->
  VisionTester.status_timer_active g = true ->
  (VisionTester.minimum (VisionTester.prg_progress g) ≤ 0)%Z ->
  (100 ≤ VisionTester.maximum (VisionTester.prg_progress g))%Z ->
  let g' := VisionTester.tick convert g (Parsed (JObject o)) in
  VisionTester.prg_progress g'
  = {| VisionTester.minimum := VisionTester.minimum (VisionTester.prg_progress g);
       VisionTester.maximum := VisionTester.maximum (VisionTester.prg_progress g);
       VisionTester.value := sp.2 |}
  ∧ length (VisionTester.txt_log g') = S (length (VisionTester.txt_log g))
  ∧ VisionTester.status_timer_active g'
    = negb (bool_decide (sp.1 ∈ ["complete"; "error"])).
Proof.
  intros Hw Hp Hg Hmin Hmax g'. unfold g', VisionTester.tick. rewrite Hg.
  rewrite vision_read_object.
  destruct (written_fields _ _ Hw) as (_ & _ & Hprog & Hmsg).
  destruct Hw as (m & t & -> & Hm).
  destruct (update_status_lookup sp.1 sp.2 m t) as (Hst & _).
  rewrite Hprog, (convert_percent _ Hp), Hmsg, Hst. cbv zeta.
  assert (Ht : VisionTester.takes (VisionTester.prg_progress g) sp.2 = true).
  { unfold VisionTester.takes. rewrite bool_decide_true; [done|lia]. }
  unfold VisionTester.bar_setValue. rewrite Ht.
  destruct (bool_decide (sp.1 ∈ ["complete"; "error"])); simpl;
    by rewrite ?length_app, ?Hg; repeat split; simpl; try lia.
Qed.

Lemma ticks_running (shape : list (string * Z)) (recs : list jobj)
    (g : VisionTester.gui) :
  Forall2 written shape recs ->
  Forall (fun sp : string * Z => sp.1 = "running" ∧ (0 ≤ sp.2 ≤ 100)%Z) shape ->
  VisionTester.status_timer_active g = true ->
  (VisionTester.minimum (VisionTester.prg_progress g) ≤ 0)%Z ->
  (100 ≤ VisionTester.maximum (VisionTester.prg_progress g))%Z ->
  let g' := fold_left (VisionTester.tick convert) (as_files recs) g in
  VisionTester.status_timer_active g' = true
  ∧ length (VisionTester.txt_log g') = length (VisionTester.txt_log g) + length recs
  ∧ VisionTester.minimum (VisionTester.prg_progress g')
    = VisionTester.minimum (VisionTester.prg_progress g)
  ∧ VisionTester.maximum (VisionTester.prg_progress g')
    = VisionTester.maximum (VisionTester.prg_progress g).
Proof.
  intros Hf. revert g.
  induction Hf as [|sp o shape recs Hw _ IH]; intros g Hrun Hg Hmin Hmax.
  - simpl. split; [done|]. split; [lia|]. by split.
  - apply Forall_cons in Hrun as [[Hsp Hp] Hrun].
    destruct (tick_written g sp o Hw Hp Hg Hmin Hmax) as (Hbar & Hlog & Htimer).
    rewrite Hsp in Htimer. simpl in Htimer.
    destruct (IH (VisionTester.tick convert g (Parsed (JObject o))) Hrun Htimer)
      as (Ht' & Hl' & Hmin' & Hmax'); [by rewrite Hbar..|].
    simpl. split; [exact Ht'|]. split; [rewrite Hl', Hlog; lia|].
    rewrite Hmin', Hmax', Hbar. by split.
Qed.

(** X18. A reader of Vision Tester that polls the status file after every
    write of a run, its timer running, its bar of a range that includes 0
    to 100 and the binding passing these values on, keeps polling up to the
    last record and stops there; the bar then shows 100 after a successful
    run and 0 after a failed one, and the log has one line for each
    record. *)
Theorem reader_follows_run (w : world) (a : arguments) (g : VisionTester.gui) :
  VisionTester.status_timer_active g = true ->
  (VisionTester.minimum (VisionTester.prg_progress g) ≤ 0)%Z ->
  (100 ≤ VisionTester.maximum (VisionTester.prg_progress g))%Z ->
  let g' := fold_left (VisionTester.tick convert) (as_files (run w a).1) g in
  VisionTester.status_timer_active g' = false
  ∧ VisionTester.value (VisionTester.prg_progress g')
    = (if (run w a).2 then 100 else 0)%Z
  ∧ length (VisionTester.txt_log g')
    = length (VisionTester.txt_log g) + length (run w a).1
  ∧ VisionTester.status_timer_active
      (fold_left (VisionTester.tick convert) (as_files (removelast (run w a).1)) g)
    = true.
Proof.
  intros Hg Hmin Hmax g'. unfold g'.
  destruct (run_split w a) as (shinit & init & final & Heq & Hinit & Hrun & Hfin).
  rewrite Heq, removelast_last. unfold as_files. rewrite fmap_app, fold_left_app.
  destruct (ticks_running shinit init g Hinit Hrun Hg Hmin Hmax)
    as (Ht & Hl & Hmin' & Hmax').
  fold (as_files init). set (g1 := fold_left _ (as_files init) g) in *.
  simpl.
  assert (Hp : (0 ≤ (if (run w a).2 then ("complete", 100%Z) else ("error", 0%Z)).2
                ≤ 100)%Z) by (destruct (run w a).2; simpl; lia).
  destruct (tick_written g1 _ final Hfin Hp Ht) as (Hprog & Hlog & Htimer);
    [by rewrite Hmin'|by rewrite Hmax'|].
  split; [rewrite Htimer; by destruct (run w a).2|].
  split; [rewrite Hprog; by destruct (run w a).2|].
  split; [|done]. rewrite Hlog, Hl, length_app. simpl. lia.
Qed.

End EngineAndReader.

Lemma reader_follows_run_witness :
  let g' := fold_left (VisionTester.tick Sample.c_int)
              (VisionEngine.as_files
                 (VisionEngine.run Sample2.good_world Sample2.single_image).1)
              Sample.vision_gui in
  VisionTester.status_timer_active g' = false
  ∧ VisionTester.value (VisionTester.prg_progress g')
    = (if (VisionEngine.run Sample2.good_world Sample2.single_image).2
       then 100 else 0)%Z
  ∧ length (VisionTester.txt_log g')
    = length (VisionTester.txt_log Sample.vision_gui)
      + length (VisionEngine.run Sample2.good_world Sample2.single_image).1
  ∧ VisionTester.status_timer_active
      (fold_left (VisionTester.tick Sample.c_int)
         (VisionEngine.as_files
            (removelast (VisionEngine.run Sample2.good_world Sample2.single_image).1))
         Sample.vision_gui)
    = true.
Proof.
  apply (reader_follows_run Sample.c_int).
  - intros n Hn. unfold Sample.c_int. rewrite bool_decide_true; [done|lia].
  - reflexivity.
  - done.
  - done.
Defined.

(** X19. What an engine writes with [update_status] is what the readers
    show: the label of FakeTool reads "Status: Engine: " followed by the
    message; the reader of Vision Tester sets the bar to the progress when
    the progress lies in the range of the bar and leaves the bar as it was
    otherwise, logs the message unless it is empty, and stops its timer
    exactly for the states [complete] and [error]. *)
Theorem status_record_round_trip (st : string) (p : Z) (m t : string) :
  let o := StatusFile.update_status st p m t in
  (∀ g, FakeTool.lbl_status (FakeTool.check_engine_status g (Parsed (JObject o)))
        = "Status: Engine: " +:+ m)
  ∧ (∀ convert g, convert (JInt p) = Some p ->
       let g' := VisionTester.update_progress_from_status convert g (Parsed (JObject o)) in
       VisionTester.prg_progress g'
       = (if VisionTester.takes (VisionTester.prg_progress g) p
          then {| VisionTester.minimum := VisionTester.minimum (VisionTester.prg_progress g);
                  VisionTester.maximum := VisionTester.maximum (VisionTester.prg_progress g);
                  VisionTester.value := p |}
          else VisionTester.prg_progress g)
       ∧ VisionTester.txt_log g'
         = VisionTester.txt_log g ++ (if decide (m = "") then [] else ["✓ " +:+ m])
       ∧ VisionTester.status_timer_active g'
         = (VisionTester.status_timer_active g
            && negb (bool_decide (st ∈ ["complete"; "error"]))))
  ∧ StatusFile.timestamp o = Some t.
Proof.
  intros o. destruct (update_status_lookup st p m t) as (Hst & Hp & Hm & Ht).
  fold o in Hst, Hp, Hm, Ht. split; [|split].
  - intros g. unfold FakeTool.check_engine_status, FakeTool.check_engine_status_body.
    simpl. unfold get. by rewrite Hm.
  - intros convert g Hacc g'. unfold g'. rewrite vision_read_object.
    unfold get. rewrite Hp, Hm, Hst. simpl. rewrite Hacc. cbv zeta.
    unfold VisionTester.bar_setValue.
    destruct (decide (m = "")) as [->|Hne].
    + simpl. rewrite app_nil_r.
      destruct (bool_decide (st ∈ ["complete"; "error"])); simpl;
        by rewrite ?andb_true_r, ?andb_false_r.
    + rewrite (bool_decide_false (m = "")) by done. simpl.
      destruct (bool_decide (st ∈ ["complete"; "error"])); simpl;
        by rewrite ?andb_true_r, ?andb_false_r.
  - unfold StatusFile.timestamp. by rewrite Ht.
Qed.

Lemma status_record_round_trip_witness :
  VisionTester.value
    (VisionTester.prg_progress
       (VisionTester.update_progress_from_status Sample.c_int Sample.vision_gui
          (Parsed (JObject (StatusFile.update_status "running" 40 ""
                              "2025-01-01T10:00:00")))))
  = 40%Z
  ∧ VisionTester.prg_progress
      (VisionTester.update_progress_from_status Sample.c_int Sample.vision_gui
         (Parsed (JObject (StatusFile.update_status "running" 150 ""
                             "2025-01-01T10:00:00"))))
    = VisionTester.prg_progress Sample.vision_gui.
Proof.
  split.
  - destruct (status_record_round_trip "running" 40 "" "2025-01-01T10:00:00")
      as (_ & H & _).
    destruct (H Sample.c_int Sample.vision_gui eq_refl) as (Hbar & _).
    by rewrite Hbar.
  - destruct (status_record_round_trip "running" 150 "" "2025-01-01T10:00:00")
      as (_ & H & _).
    destruct (H Sample.c_int Sample.vision_gui eq_refl) as (Hbar & _).
    by rewrite Hbar.
Defined.
